(** * general_scraper: the Selenium lifecycle wrapper and the logging bootstrap

    A shallow embedding of [app/scraper/scraper.py] and
    [app/utils/logging_setup.py].

    - [Module Scraper]: the class [Scraper] as a state-and-exception monad
      over the wrapper object, the Selenium library (an arbitrary
      collaborator, given as a record of fallible operations over a hidden
      world), the records handed to the logger and a ghost list of calls.
    - [Module LoggingSetup]: the configuration dictionary of
      [get_logging_config], [get_log_dir] over a tree-shaped file system,
      and the level filtering of the [logging] dispatch. *)

From Stdlib Require Import ZArith Floats.
From stdpp Require Import base tactics option list strings gmap.

Local Open Scope Z_scope.
Local Open Scope string_scope.

(** ** Outcomes of fallible Python code *)

Inductive Outcome (E A : Type) : Type :=
| Return (a : A)
| Raise (e : E).
Arguments Return {E A} a.
Arguments Raise {E A} e.

Module Scraper.

(** *** Exceptions *)

(** An exception coming from outside this module: the Selenium library, the
    standard library, or the body of a [with] block.  [exc_is_webdriver] is
    the answer of [isinstance(e, WebDriverException)], [exc_str] is
    [str(e)]. *)
Record LibraryException := {
  exc_class : string;
  exc_is_webdriver : bool;
  exc_str : string
}.

(** [ScraperError] has the two subclasses below, each raised
    [from] the library exception it wraps ([__cause__]). *)
Inductive PyException :=
| Lib (e : LibraryException)
| DriverInitializationError (msg : string) (cause : LibraryException)
| DriverShutdownError (msg : string) (cause : LibraryException).

(** *** Objects of the Selenium library *)

(** Library objects are opaque; they are known by their identity. *)
Record ChromeService := { service_id : nat }.
Record WebDriver := { driver_id : nat }.

(** [selenium.webdriver.chrome.options.Options]: the list [_arguments] of
    command-line arguments, filled by [add_argument]. *)
Record Options := {
  arguments : list string
}.

Definition Options_new : Options := {| arguments := [] |}.

Definition add_argument (a : string) (o : Options) : Options :=
  {| arguments := arguments o ++ [a] |}.


Definition set_headless_True (o : Options) : Options :=
  {| arguments := arguments o ++ ["--headless"] |}.

(** *** The wrapper object *)

Record Scraper := {
  driver_path : option string;
  headless : bool;
  implicit_wait : float;
  _driver : option WebDriver;
  _service : option ChromeService
}.

(** [Scraper.__init__] *)
Definition __init__ (driver_path : option string) (headless : bool)
    (implicit_wait : float) : Scraper :=
  {| driver_path := driver_path;
     headless := headless;
     implicit_wait := implicit_wait;
     _driver := None;
     _service := None |}.

Definition set_driver (d : option WebDriver) (s : Scraper) : Scraper :=
  {| driver_path := driver_path s; headless := headless s;
     implicit_wait := implicit_wait s; _driver := d; _service := _service s |}.

Definition set_service (v : option ChromeService) (s : Scraper) : Scraper :=
  {| driver_path := driver_path s; headless := headless s;
     implicit_wait := implicit_wait s; _driver := _driver s; _service := v |}.

(** The three fields given at construction. *)
Definition configuration (s : Scraper) : option string * bool * float :=
  (driver_path s, headless s, implicit_wait s).

(** *** Logging and the ghost call list *)

Inductive Level := DEBUG | INFO | WARNING | ERROR | CRITICAL.

Record LogRecord := {
  levelname : Level;
  message : string;
  exc_info : option PyException
}.

(** Ghost instrumentation: every entry into [stop] and every call into the
    library is appended to [calls]. *)
Inductive Event :=
| EvStop
| EvChromeService (executable_path : option string)
| EvChrome (service : option ChromeService) (options : Options)
| EvImplicitlyWait (d : WebDriver) (t : float)
| EvQuit (d : WebDriver).

Definition is_stop (e : Event) : bool :=
  match e with EvStop => true | _ => false end.

Definition count_stop (l : list Event) : nat :=
  length (List.filter is_stop l).

(** [_configure_options]: a pure function of the wrapper. *)
Definition _configure_options (self : Scraper) : Options :=
  let options := Options_new in
  let options := add_argument "--disable-infobars" options in
  let options := add_argument "--disable-dev-shm-usage" options in
  let options := add_argument "--no-sandbox" options in
  if headless self then
    let options := set_headless_True options in
    add_argument "--disable-gpu" options
  else options.

Section WithLibrary.

(** The hidden state of the outside world (browser processes, ...). *)
Context {World : Type}.

(** The four library operations the wrapper uses. *)
Record Selenium := {
  ChromeService_new :
    option string → World → Outcome LibraryException ChromeService * World;
  Chrome_new :
    option ChromeService → Options → World →
    Outcome LibraryException WebDriver * World;
  implicitly_wait :
    WebDriver → float → World → Outcome LibraryException unit * World;
  quit : WebDriver → World → Outcome LibraryException unit * World
}.

Variable lib : Selenium.

Record Machine := {
  self : Scraper;
  world : World;
  records : list LogRecord;
  calls : list Event
}.

(** *** The monad: state passing with exceptions *)

Definition M (A : Type) : Type := Machine → Outcome PyException A * Machine.

Definition ret {A} (a : A) : M A := λ m, (Return a, m).
Definition bind {A B} (c : M A) (k : A → M B) : M B :=
  λ m, match c m with
       | (Return a, m1) => k a m1
       | (Raise e, m1) => (Raise e, m1)
       end.
Definition raise {A} (e : PyException) : M A := λ m, (Raise e, m).

(** [try: c except ...: h]; [h e = None] when no clause matches [e]. *)
Definition try_except {A} (c : M A) (h : PyException → option (M A)) : M A :=
  λ m, match c m with
       | (Return a, m1) => (Return a, m1)
       | (Raise e, m1) =>
           match h e with
           | Some k => k m1
           | None => (Raise e, m1)
           end
       end.

(** [try: c finally: f], for a [finally] block [f] that cannot raise. *)
Definition try_finally {A} (c : M A) (f : Machine → Machine) : M A :=
  λ m, let '(r, m1) := c m in (r, f m1).

#[local] Instance M_ret : MRet M := @ret.
#[local] Instance M_bind : MBind M := λ A B k c, bind c k.

(** The clause [except WebDriverException as e]. *)
Definition except_WebDriverException {A} (h : LibraryException → M A)
    (e : PyException) : option (M A) :=
  match e with
  | Lib le => if exc_is_webdriver le then Some (h le) else None
  | _ => None
  end.

(** Elementary state changes. *)
Definition modify_self (f : Scraper → Scraper) (m : Machine) : Machine :=
  {| self := f (self m); world := world m;
     records := records m; calls := calls m |}.
Definition set_world (w : World) (m : Machine) : Machine :=
  {| self := self m; world := w; records := records m; calls := calls m |}.
Definition add_record (r : LogRecord) (m : Machine) : Machine :=
  {| self := self m; world := world m;
     records := records m ++ [r]; calls := calls m |}.
Definition add_call (ev : Event) (m : Machine) : Machine :=
  {| self := self m; world := world m;
     records := records m; calls := calls m ++ [ev] |}.

Definition get_self : M Scraper := λ m, (Return (self m), m).
Definition update_self (f : Scraper → Scraper) : M unit :=
  λ m, (Return tt, modify_self f m).

Definition logger_log (lv : Level) (msg : string)
    (ei : option PyException) : M unit :=
  λ m, (Return tt,
        add_record {| levelname := lv; message := msg; exc_info := ei |} m).

Definition note (ev : Event) : M unit := λ m, (Return tt, add_call ev m).

(** A call into the library: the world moves, an exception becomes [Lib]. *)
Definition call {A} (ev : Event)
    (f : World → Outcome LibraryException A * World) : M A :=
  λ m, let '(r, w) := f (world m) in
       let m1 := set_world w (add_call ev m) in
       match r with
       | Return a => (Return a, m1)
       | Raise e => (Raise (Lib e), m1)
       end.

(** Truth value of [self.driver_path]: [None] and [""] are false. *)
Definition truthy_path (p : option string) : bool :=
  match p with
  | Some s => negb (String.eqb s "")
  | None => false
  end.

(** The [executable_path] that [_configure_service] passes on. *)
Definition service_path (s : Scraper) : option string :=
  if truthy_path (driver_path s) then driver_path s else None.

(** *** The methods *)

Definition _configure_service : M unit :=
  try_except
    (s ← get_self;
     if truthy_path (driver_path s) then
       (v ← call (EvChromeService (driver_path s))
                 (ChromeService_new lib (driver_path s));
        update_self (set_service (Some v)))
     else
       (v ← call (EvChromeService None) (ChromeService_new lib None);
        update_self (set_service (Some v))))
    (except_WebDriverException (λ e,
       let msg := "Error al configurar ChromeService: " ++ exc_str e in
       logger_log ERROR msg None ;;
       raise (DriverInitializationError msg e))).

(** The [finally] block of [stop]. *)
Definition clear_handles (s : Scraper) : Scraper :=
  set_service None (set_driver None s).

(** [if self._driver:] holds exactly when the field is not [None]: a driver
    object is true. *)
Definition stop : M unit :=
  note EvStop ;;
  s ← get_self;
  match _driver s with
  | Some d =>
      try_finally
        (try_except
           (call (EvQuit d) (quit lib d) ;;
            logger_log INFO "Navegador cerrado correctamente." None)
           (except_WebDriverException (λ e,
              let msg := "Error al cerrar el navegador: " ++ exc_str e in
              logger_log ERROR msg None ;;
              raise (DriverShutdownError msg e))))
        (modify_self clear_handles)
  | None => ret tt
  end.

(** The body of the clause [except WebDriverException as e] of [start]. *)
Definition start_except (e : LibraryException) : M WebDriver :=
  let msg := "Error al iniciar el navegador: " ++ exc_str e in
  logger_log CRITICAL msg None ;;
  stop ;;
  raise (DriverInitializationError msg e).

Definition start : M WebDriver :=
  s ← get_self;
  match _driver s with
  | Some d =>
      logger_log WARNING "El navegador ya está iniciado." None ;;
      ret d
  | None =>
      try_except
        (_configure_service ;;
         s ← get_self;
         let options := _configure_options s in
         d ← call (EvChrome (_service s) options)
                   (Chrome_new lib (_service s) options);
         update_self (set_driver (Some d)) ;;
         s ← get_self;
         call (EvImplicitlyWait d (implicit_wait s))
              (implicitly_wait lib d (implicit_wait s)) ;;
         logger_log INFO "Navegador iniciado con éxito." None ;;
         ret d)
        (except_WebDriverException start_except)
  end.

Definition __enter__ : M WebDriver := start.

(** [__exit__(exc_type, exc_val, exc_tb)]: the three arguments are all
    [None] or describe one exception, so they are one [option]; an
    exception class is true. *)
Definition __exit__ (exc : option PyException) : M bool :=
  stop ;;
  match exc with
  | Some e => logger_log ERROR "Excepción en el bloque with" (Some e)
  | None => ret tt
  end ;;
  ret false.

(** The statement [with scraper as driver: body(driver)], as the language
    defines it: [__exit__] runs when the body was entered; an exception of
    [__exit__] replaces the one of the body; a true result suppresses the
    exception of the body (the statement then yields [None]). *)
Definition with_block {A} (body : WebDriver → M A) (d : WebDriver) :
    M (option A) :=
  λ m, match body d m with
       | (Return a, m1) =>
           match __exit__ None m1 with
           | (Return _, m2) => (Return (Some a), m2)
           | (Raise e', m2) => (Raise e', m2)
           end
       | (Raise e, m1) =>
           match __exit__ (Some e) m1 with
           | (Return b, m2) =>
               if b then (Return None, m2) else (Raise e, m2)
           | (Raise e', m2) => (Raise e', m2)
           end
       end.

Definition with_ {A} (body : WebDriver → M A) : M (option A) :=
  d ← __enter__;
  with_block body d.

(** A sequence of calls of [start] and [stop], failing or not. *)
Inductive Op := OpStart | OpStop.

Definition run_op (o : Op) (m : Machine) : Machine :=
  match o with
  | OpStart => snd (start m)
  | OpStop => snd (stop m)
  end.

Definition run_ops (l : list Op) (m : Machine) : Machine :=
  foldl (λ m o, run_op o m) m l.

(** The first library call of the [try] block of [start] that raises, if
    any: where it happened, the exception, and the world it left. *)
Inductive Stage := AtService | AtChrome | AtImplicitlyWait.

Definition startup_failure (m : Machine) :
    option (Stage * LibraryException * World) :=
  let s := self m in
  match ChromeService_new lib (service_path s) (world m) with
  | (Raise e, w) => Some (AtService, e, w)
  | (Return v, w1) =>
      match Chrome_new lib (Some v) (_configure_options s) w1 with
      | (Raise e, w2) => Some (AtChrome, e, w2)
      | (Return d, w2) =>
          match implicitly_wait lib d (implicit_wait s) w2 with
          | (Raise e, w3) => Some (AtImplicitlyWait, e, w3)
          | (Return _, _) => None
          end
      end
  end.

(** What the [except] clause of [start] makes of a library exception
    raised in the [try] block after the service was configured. *)
Definition start_caught (e : LibraryException) (m : Machine) :
    Outcome PyException WebDriver * Machine :=
  if exc_is_webdriver e then start_except e m else (Raise (Lib e), m).

End WithLibrary.

Arguments Selenium : clear implicits.
Arguments Machine : clear implicits.
Arguments M : clear implicits.

(** The records and messages the methods produce, named for the
    statements below. *)
Definition info_closed : LogRecord :=
  {| levelname := INFO; message := "Navegador cerrado correctamente.";
     exc_info := None |}.
Definition error_record (msg : string) : LogRecord :=
  {| levelname := ERROR; message := msg; exc_info := None |}.
Definition warning_started : LogRecord :=
  {| levelname := WARNING; message := "El navegador ya está iniciado.";
     exc_info := None |}.
Definition shutdown_msg (e : LibraryException) : string :=
  "Error al cerrar el navegador: " ++ exc_str e.
Definition startup_msg (e : LibraryException) : string :=
  "Error al iniciar el navegador: " ++ exc_str e.
Definition service_msg (e : LibraryException) : string :=
  "Error al configurar ChromeService: " ++ exc_str e.
Definition critical_record (msg : string) : LogRecord :=
  {| levelname := CRITICAL; message := msg; exc_info := None |}.
Definition info_started : LogRecord :=
  {| levelname := INFO; message := "Navegador iniciado con éxito.";
     exc_info := None |}.
Definition error_in_block (e : PyException) : LogRecord :=
  {| levelname := ERROR; message := "Excepción en el bloque with";
     exc_info := Some e |}.

(** *** A scripted library, for concrete runs

    The world is a counter of the objects created so far; each operation
    fails with the exception the script gives it, if any. *)
Record Script := {
  service_error : option LibraryException;
  chrome_error : option LibraryException;
  wait_error : option LibraryException;
  quit_error : option LibraryException
}.

Definition scripted (sc : Script) : Selenium nat :=
  {| ChromeService_new := λ _ w,
       match service_error sc with
       | Some e => (Raise e, w)
       | None => (Return {| service_id := w |}, S w)
       end;
     Chrome_new := λ _ _ w,
       match chrome_error sc with
       | Some e => (Raise e, w)
       | None => (Return {| driver_id := w |}, S w)
       end;
     implicitly_wait := λ _ _ w,
       match wait_error sc with
       | Some e => (Raise e, w)
       | None => (Return tt, w)
       end;
     quit := λ _ w,
       match quit_error sc with
       | Some e => (Raise e, w)
       | None => (Return tt, w)
       end |}.

Definition healthy : Script :=
  {| service_error := None; chrome_error := None;
     wait_error := None; quit_error := None |}.

Definition SessionNotCreatedException : LibraryException :=
  {| exc_class := "SessionNotCreatedException"; exc_is_webdriver := true;
     exc_str := "Message: session not created" |}.

Definition InvalidSessionIdException : LibraryException :=
  {| exc_class := "InvalidSessionIdException"; exc_is_webdriver := true;
     exc_str := "Message: invalid session id" |}.

Definition MaxRetryError : LibraryException :=
  {| exc_class := "MaxRetryError"; exc_is_webdriver := false;
     exc_str := "Max retries exceeded" |}.

Definition ValueError : LibraryException :=
  {| exc_class := "ValueError"; exc_is_webdriver := false;
     exc_str := "bad value" |}.

Definition quit_fails (e : LibraryException) : Script :=
  {| service_error := None; chrome_error := None;
     wait_error := None; quit_error := Some e |}.
Definition wait_fails (e : LibraryException) : Script :=
  {| service_error := None; chrome_error := None;
     wait_error := Some e; quit_error := None |}.
Definition chrome_fails (e : LibraryException) : Script :=
  {| service_error := None; chrome_error := Some e;
     wait_error := None; quit_error := None |}.
Definition service_fails (e : LibraryException) : Script :=
  {| service_error := Some e; chrome_error := None;
     wait_error := None; quit_error := None |}.
Definition wait_and_quit_fail (e1 e2 : LibraryException) : Script :=
  {| service_error := None; chrome_error := None;
     wait_error := Some e1; quit_error := Some e2 |}.

(** A machine around a fresh wrapper, and one whose wrapper owns driver 1
    and service 0. *)
Definition fresh (s : Scraper) : Machine nat :=
  {| self := s; world := 0%nat; records := []; calls := [] |}.

Definition driver1 : WebDriver := {| driver_id := 1 |}.

Definition started : Machine nat :=
  {| self := set_driver (Some driver1)
               (set_service (Some {| service_id := 0 |})
                  (__init__ None true 10%float));
     world := 2%nat; records := []; calls := [] |}.

End Scraper.

(** * The logging bootstrap *)

Module LoggingSetup.

Definition LOG_DIR_NAME : string := "logs".
Definition LOG_FILE_NAME : string := "application.log".
Definition LOG_FORMAT : string :=
  "%(asctime)s.%(msecs)03d [%(levelname)-8s] " ++
  "%(name)s:%(funcName)s:%(lineno)d - %(message)s".
Definition LOG_DATE_FORMAT : string := "%Y-%m-%dT%H:%M:%S%z".
Definition LOG_MAX_BYTES : Z := 10 * 1024 * 1024.
Definition LOG_BACKUP_COUNT : Z := 5.
Definition LOG_ENCODING : string := "utf-8".

(** *** Paths and the file system *)

(** A path is the list of its components below the root ([Path.parts]
    without the anchor); [Path.parent] drops the last one and the root is
    its own parent. *)
Definition Path := list string.

Definition parent (p : Path) : Path := removelast p.
Definition joinpath (p : Path) (name : string) : Path := (p ++ [name])%list.
Definition str (p : Path) : string :=
  "/" ++ String.concat "/" p.

(** The file system is a tree; a directory has a write permission and
    named children. *)
#[warnings="-register-all"] Inductive Node :=
| File
| Dir (writable : bool) (children : gmap string Node).

Fixpoint lookup_path (p : Path) (t : Node) : option Node :=
  match p with
  | [] => Some t
  | c :: p' =>
      match t with
      | Dir _ ch =>
          match ch !! c with
          | Some t' => lookup_path p' t'
          | None => None
          end
      | File => None
      end
  end.

(** [Path.is_dir] *)
Definition is_dir (p : Path) (fs : Node) : bool :=
  match lookup_path p fs with
  | Some (Dir _ _) => true
  | _ => false
  end.

(** The error numbers the system call can give here. *)
Inductive Errno := EEXIST | ENOENT | ENOTDIR | EACCES.

(** An [OSError] as [os.mkdir] raises it: the error number, which decides
    the class ([FileExistsError] for [EEXIST] and so on), and the file
    name, which is the path given to [os.mkdir]. *)
Record OSError := {
  errno : Errno;
  filename : Path
}.

Definition FileExistsError (p : Path) : OSError :=
  {| errno := EEXIST; filename := p |}.
Definition FileNotFoundError (p : Path) : OSError :=
  {| errno := ENOENT; filename := p |}.
Definition NotADirectoryError (p : Path) : OSError :=
  {| errno := ENOTDIR; filename := p |}.
Definition PermissionError (p : Path) : OSError :=
  {| errno := EACCES; filename := p |}.

(** The text [[Errno n] strerror] of an error number. *)
Definition Errno_str (k : Errno) : string :=
  match k with
  | EEXIST => "[Errno 17] File exists"
  | ENOENT => "[Errno 2] No such file or directory"
  | ENOTDIR => "[Errno 20] Not a directory"
  | EACCES => "[Errno 13] Permission denied"
  end.

(** [str(e)] of an [OSError] with a file name:
    [[Errno n] strerror: repr(filename)].  [repr] is the built-in of the
    language on strings, taken as a parameter. *)
Definition OSError_str (repr : string → string) (e : OSError) : string :=
  Errno_str (errno e) ++ ": " ++ repr (str (filename e)).

Definition is_FileNotFoundError (e : OSError) : bool :=
  match errno e with ENOENT => true | _ => false end.

(** The system call [mkdir]: the parent must exist and be a directory, the
    name must be free, and the parent must be writable. *)
Fixpoint mkdir_syscall (p : Path) (t : Node) : Outcome Errno Node :=
  match p with
  | [] => Raise EEXIST
  | c :: p' =>
      match t with
      | File => Raise ENOTDIR
      | Dir w ch =>
          match p' with
          | [] =>
              match ch !! c with
              | Some _ => Raise EEXIST
              | None =>
                  if w then Return (Dir w (<[c := Dir true ∅]> ch))
                  else Raise EACCES
              end
          | _ :: _ =>
              match ch !! c with
              | None => Raise ENOENT
              | Some t' =>
                  match mkdir_syscall p' t' with
                  | Return t'' => Return (Dir w (<[c := t'']> ch))
                  | Raise e => Raise e
                  end
              end
          end
      end
  end.

(** [os.mkdir(p)]: the system call, its error raised as an [OSError] that
    carries [p]. *)
Definition os_mkdir (p : Path) (t : Node) : Outcome OSError Node :=
  match mkdir_syscall p t with
  | Return t' => Return t'
  | Raise k => Raise {| errno := k; filename := p |}
  end.

(** [Path.mkdir(parents=False, exist_ok=exist_ok)] as [pathlib] has it:
    [FileNotFoundError] is raised again, any other [OSError] is raised
    again unless [exist_ok] holds and the path is a directory. *)
Definition mkdir_plain (exist_ok : bool) (p : Path) (fs : Node) :
    Outcome OSError unit * Node :=
  match os_mkdir p fs with
  | Return fs' => (Return tt, fs')
  | Raise e =>
      if is_FileNotFoundError e then (Raise e, fs)
      else if negb exist_ok || negb (is_dir p fs) then (Raise e, fs)
      else (Return tt, fs)
  end.

(** [Path.mkdir(parents=True, exist_ok=exist_ok)], by recursion on the
    components read from the last one: on [FileNotFoundError] the parent is
    made with [parents=True, exist_ok=True], then the path itself with
    [parents=False]. *)
Fixpoint mkdir_parents (exist_ok : bool) (rp : list string) (fs : Node) :
    Outcome OSError unit * Node :=
  match os_mkdir (rev rp) fs with
  | Return fs' => (Return tt, fs')
  | Raise e =>
      if is_FileNotFoundError e then
        match rp with
        | [] => (Raise e, fs)
        | _ :: rparent =>
            match mkdir_parents true rparent fs with
            | (Return _, fs1) => mkdir_plain exist_ok (rev rp) fs1
            | (Raise e1, fs1) => (Raise e1, fs1)
            end
        end
      else if negb exist_ok || negb (is_dir (rev rp) fs) then (Raise e, fs)
      else (Return tt, fs)
  end.

Definition mkdir (parents exist_ok : bool) (p : Path) (fs : Node) :
    Outcome OSError unit * Node :=
  if parents then mkdir_parents exist_ok (rev p) fs
  else mkdir_plain exist_ok p fs.

(** *** [get_log_dir] *)

Inductive LoggingSetupError :=
| LoggingSetupError_from (msg : string) (cause : OSError).

Section GetLogDir.

(** [repr] on strings, and [Path(__file__).resolve()], the place of the
    module. *)
Variable repr : string → string.
Variable module_file : Path.

Definition get_log_dir (project_root : option Path) (fs : Node) :
    Outcome LoggingSetupError Path * Node :=
  let project_root :=
    match project_root with
    | None => parent (parent (parent module_file))
    | Some r => r
    end in
  let log_dir := joinpath project_root LOG_DIR_NAME in
  match mkdir true true log_dir fs with
  | (Return _, fs') => (Return log_dir, fs')
  | (Raise e, fs') =>
      (Raise (LoggingSetupError_from
                ("No se pudo crear el directorio de logs: " ++
                 OSError_str repr e)
                e),
       fs')
  end.

(** The directory [get_log_dir] is about. *)
Definition log_dir_of (project_root : option Path) : Path :=
  joinpath (default (parent (parent (parent module_file))) project_root)
    LOG_DIR_NAME.

End GetLogDir.

(** [repr] of a string free of quotes, backslashes and characters that do
    not print, as the paths of the concrete runs are. *)
Definition quoted (s : string) : string := "'" ++ s ++ "'".

(** *** [get_logging_config] *)

(** The values of the configuration dictionary. *)
#[warnings="-register-all"] Inductive Value :=
| VInt (z : Z)
| VBool (b : bool)
| VStr (s : string)
| VList (l : list Value)
| VDict (d : gmap string Value)
| VStdout.

(** A dictionary display with distinct keys. *)
Definition dict (l : list (string * Value)) : Value := VDict (list_to_map l).

Definition get_logging_config (log_file_path : Path) : Value :=
  dict [
    ("version", VInt 1);
    ("disable_existing_loggers", VBool false);
    ("formatters", dict [
      ("standard", dict [
        ("format", VStr LOG_FORMAT);
        ("datefmt", VStr LOG_DATE_FORMAT);
        ("validate", VBool true)
      ])
    ]);
    ("handlers", dict [
      ("rotating_file", dict [
        ("class", VStr "logging.handlers.RotatingFileHandler");
        ("level", VStr "INFO");
        ("formatter", VStr "standard");
        ("filename", VStr (str log_file_path));
        ("encoding", VStr LOG_ENCODING);
        ("maxBytes", VInt LOG_MAX_BYTES);
        ("backupCount", VInt LOG_BACKUP_COUNT);
        ("delay", VBool true)
      ]);
      ("console", dict [
        ("class", VStr "logging.StreamHandler");
        ("level", VStr "DEBUG");
        ("formatter", VStr "standard");
        ("stream", VStdout)
      ])
    ]);
    ("loggers", dict [
      ("", dict [
        ("handlers", VList [VStr "rotating_file"; VStr "console"]);
        ("level", VStr "DEBUG");
        ("propagate", VBool false)
      ]);
      ("urllib3", dict [
        ("level", VStr "WARNING");
        ("propagate", VBool false)
      ])
    ])
  ].

(** Reading a dictionary: [d[k]], the keys of [d], and a chain of
    subscripts. *)
Definition item (k : string) (v : Value) : option Value :=
  match v with VDict d => d !! k | _ => None end.

Definition keys (v : Value) : gset string :=
  match v with VDict d => dom d | _ => ∅ end.

Definition items_at (ks : list string) (v : Value) : option Value :=
  foldl (λ o k, o ≫= item k) (Some v) ks.

(** *** Level filtering of the [logging] package

    What [dictConfig] and [Logger.handle] make of the levels, handlers and
    [propagate] entries of a configuration: a record passes the effective
    level of its logger, then each handler found on the way up to the
    first logger that does not propagate emits it when the record's level
    reaches the handler's. *)

Definition _nameToLevel (s : string) : option Z :=
  if String.eqb s "CRITICAL" then Some 50
  else if String.eqb s "ERROR" then Some 40
  else if String.eqb s "WARNING" then Some 30
  else if String.eqb s "INFO" then Some 20
  else if String.eqb s "DEBUG" then Some 10
  else if String.eqb s "NOTSET" then Some 0
  else None.

(** A level entry of the dictionary: a name or a number. *)
Definition level_entry (v : Value) : option Z :=
  match v with
  | VStr s => _nameToLevel s
  | VInt z => Some z
  | _ => None
  end.

(** A handler without a level entry stays at [NOTSET]. *)
Definition handler_level (cfg : Value) (h : string) : Z :=
  default 0 (items_at ["handlers"; h; "level"] cfg ≫= level_entry).

(** A logger is named by its dotted components, none of them empty; the
    root is [[]] and its key in the dictionary is [""]. *)
Definition LoggerName := list string.
Definition logger_key (n : LoggerName) : string := String.concat "." n.

(** A logger without a level entry keeps the level it is created with:
    [WARNING] for the root, [NOTSET] for the others. *)
Definition initial_level (n : LoggerName) : Z :=
  match n with [] => 30 | _ => 0 end.

Definition logger_level (cfg : Value) (n : LoggerName) : Z :=
  default (initial_level n)
    (items_at ["loggers"; logger_key n; "level"] cfg ≫= level_entry).

Definition logger_propagate (cfg : Value) (n : LoggerName) : bool :=
  match items_at ["loggers"; logger_key n; "propagate"] cfg with
  | Some (VBool b) => b
  | _ => true
  end.

Definition handler_name (v : Value) : option string :=
  match v with VStr s => Some s | _ => None end.

Definition logger_handlers (cfg : Value) (n : LoggerName) : list string :=
  match items_at ["loggers"; logger_key n; "handlers"] cfg with
  | Some (VList l) => omap handler_name l
  | _ => []
  end.

(** The logger and its ancestors, nearest first, the root last. *)
Fixpoint ancestry_rev (rn : list string) : list LoggerName :=
  match rn with
  | [] => [[]]
  | _ :: rparent => rev rn :: ancestry_rev rparent
  end.
Definition ancestry (n : LoggerName) : list LoggerName := ancestry_rev (rev n).

(** [Logger.getEffectiveLevel] *)
Fixpoint effective_level (cfg : Value) (chain : list LoggerName) : Z :=
  match chain with
  | [] => 0
  | n :: rest =>
      if Z.eqb (logger_level cfg n) 0 then effective_level cfg rest
      else logger_level cfg n
  end.

(** Where a record ends up: a handler of the configuration, or the
    [lastResort] handler of the package (level [WARNING], standard error),
    used when no handler was found on the way up. *)
Inductive Sink :=
| Configured (h : string)
| LastResort.

(** The loop of [Logger.callHandlers], for loggers that carry the
    handlers of the configuration and no other: the handlers that emit,
    and the number of handlers found. *)
Fixpoint walk_handlers (cfg : Value) (levelno : Z) (chain : list LoggerName) :
    list string * nat :=
  match chain with
  | [] => ([], 0%nat)
  | n :: rest =>
      let hs := logger_handlers cfg n in
      let emitting := filter (λ h, (handler_level cfg h ≤ levelno)%Z) hs in
      if logger_propagate cfg n then
        let '(emitting', found') := walk_handlers cfg levelno rest in
        ((emitting ++ emitting')%list, (length hs + found')%nat)
      else (emitting, length hs)
  end.

Definition callHandlers (cfg : Value) (levelno : Z)
    (chain : list LoggerName) : list Sink :=
  let '(emitting, found) := walk_handlers cfg levelno chain in
  if Nat.eqb found 0 then
    if Z.leb 30 levelno then [LastResort] else []
  else Configured <$> emitting.

(** [Logger.log(levelno, ...)] on the logger [n]. *)
Definition emitted_by (cfg : Value) (n : LoggerName) (levelno : Z) :
    list Sink :=
  if Z.leb (effective_level cfg (ancestry n)) levelno
  then callHandlers cfg levelno (ancestry n)
  else [].

(** The same dispatch for loggers that also carry handlers which code
    outside the configuration attached after it was applied, such as the
    [NullHandler] that [urllib3] adds to its logger when it is imported:
    [others n] is their number on the logger [n].  They count as handlers
    found; what they do with a record concerns none of the sinks of the
    configuration (a [NullHandler] does nothing). *)
Fixpoint walk_handlers_with (others : LoggerName → nat) (cfg : Value)
    (levelno : Z) (chain : list LoggerName) : list string * nat :=
  match chain with
  | [] => ([], 0%nat)
  | n :: rest =>
      let hs := logger_handlers cfg n in
      let emitting := filter (λ h, (handler_level cfg h ≤ levelno)%Z) hs in
      let here := (length hs + others n)%nat in
      if logger_propagate cfg n then
        let '(emitting', found') :=
          walk_handlers_with others cfg levelno rest in
        ((emitting ++ emitting')%list, (here + found')%nat)
      else (emitting, here)
  end.

Definition callHandlers_with (others : LoggerName → nat) (cfg : Value)
    (levelno : Z) (chain : list LoggerName) : list Sink :=
  let '(emitting, found) := walk_handlers_with others cfg levelno chain in
  if Nat.eqb found 0 then
    if Z.leb 30 levelno then [LastResort] else []
  else Configured <$> emitting.

Definition emitted_by_with (others : LoggerName → nat) (cfg : Value)
    (n : LoggerName) (levelno : Z) : list Sink :=
  if Z.leb (effective_level cfg (ancestry n)) levelno
  then callHandlers_with others cfg levelno (ancestry n)
  else [].

(** *** A small file system, for concrete runs *)

Definition srv_tree : Node :=
  Dir true {[ "srv" := Dir true {[ "readme" := File ]};
              "etc" := Dir false ∅ ]}.

(** A root whose [logs] entry is a regular file. *)
Definition logs_is_file : Node := Dir true {[ "logs" := File ]}.

Definition this_module : Path := ["srv"; "app"; "utils"; "logging_setup.py"].

(** *** [setup_logging] *)

(** An exception of the [logging] package or of the interpreter;
    [ext_is_Exception] is the answer of [isinstance(e, Exception)] (false
    for [KeyboardInterrupt] and the like), [ext_str] is [str(e)]. *)
Record ExternalException := {
  ext_class : string;
  ext_is_Exception : bool;
  ext_str : string
}.

(** [str(e)] of a [LoggingSetupError]: its message. *)
Definition LoggingSetupError_str (e : LoggingSetupError) : string :=
  match e with LoggingSetupError_from msg _ => msg end.

(** What [setup_logging] raises: [LoggingSetupError] from what its
    [except Exception] clause caught (the error of [get_log_dir] or an
    exception of the package), or an exception that clause lets pass. *)
Inductive SetupCause :=
| FromLogDir (e : LoggingSetupError)
| FromLogging (e : ExternalException).

Inductive SetupRaised :=
| SetupError (msg : string) (cause : SetupCause)
| Passing (e : ExternalException).

(** Ghost list of the calls into the [logging] package. *)
Inductive PkgEvent :=
| EvDictConfig (config : Value)
| EvAssignConverter
| EvInfo (fmt : string) (arg : Path).

Section SetupLogging.

(** The state of the [logging] package. *)
Context {LogWorld : Type}.

(** The three things [setup_logging] does with the package:
    [logging.config.dictConfig(config)], the assignment to
    [logging.Formatter.converter], and [logger.info(fmt, log_file)] on the
    logger of the module.  The first and the last may touch the file
    system and may raise; an assignment does neither. *)
Record LoggingPackage := {
  dictConfig :
    Value → Node * LogWorld →
    Outcome ExternalException unit * (Node * LogWorld);
  assign_converter : LogWorld → LogWorld;
  logger_info :
    string → Path → Node * LogWorld →
    Outcome ExternalException unit * (Node * LogWorld)
}.

Variable pkg : LoggingPackage.
Variable repr : string → string.
Variable module_file : Path.

(** The clause [except Exception as e] for an exception of the package. *)
Definition setup_caught (x : ExternalException) : SetupRaised :=
  if ext_is_Exception x then
    SetupError ("Error configurando el sistema de logging: " ++ ext_str x)
      (FromLogging x)
  else Passing x.

Definition setup_logging (project_root : option Path) (fs : Node)
    (w : LogWorld) :
    Outcome SetupRaised unit * (Node * LogWorld * list PkgEvent) :=
  match get_log_dir repr module_file project_root fs with
  | (Raise e, fs1) =>
      (Raise (SetupError
                ("Error configurando el sistema de logging: " ++
                 LoggingSetupError_str e)
                (FromLogDir e)),
       (fs1, w, []))
  | (Return log_dir, fs1) =>
      let log_file := joinpath log_dir LOG_FILE_NAME in
      let config := get_logging_config log_file in
      match dictConfig pkg config (fs1, w) with
      | (Raise x, (fs2, w2)) =>
          (Raise (setup_caught x), (fs2, w2, [EvDictConfig config]))
      | (Return _, (fs2, w2)) =>
          let w3 := assign_converter pkg w2 in
          let fmt := "Logging configurado correctamente. Archivo: %s" in
          let evs := [EvDictConfig config; EvAssignConverter;
                      EvInfo fmt log_file] in
          match logger_info pkg fmt log_file (fs2, w3) with
          | (Raise x, (fs3, w4)) => (Raise (setup_caught x), (fs3, w4, evs))
          | (Return _, (fs3, w4)) => (Return tt, (fs3, w4, evs))
          end
      end
  end.

End SetupLogging.

Arguments LoggingPackage : clear implicits.

(** A package that accepts everything, and one whose [dictConfig] rejects
    the configuration; their state counts the configurations applied. *)
Definition accepting : LoggingPackage nat :=
  {| dictConfig := λ _ st, (Return tt, (st.1, S st.2));
     assign_converter := λ w, w;
     logger_info := λ _ _ st, (Return tt, st) |}.

Definition ValueError : ExternalException :=
  {| ext_class := "ValueError"; ext_is_Exception := true;
     ext_str := "Unable to configure handler 'rotating_file'" |}.




(** *** Notions for the statements *)

(** What a node is: a file, or a directory with its permission. *)
Definition node_kind (n : Node) : option bool :=
  match n with
  | File => None
  | Dir w _ => Some w
  end.

(** [fs'] has everything [fs] has, each entry of the same kind. *)
Definition extends (fs fs' : Node) : Prop :=
  ∀ (q : Path) (n : Node),
    lookup_path q fs = Some n →
    ∃ n', lookup_path q fs' = Some n' ∧ node_kind n' = node_kind n.

(** The numeric value of the levels the wrapper logs at. *)
Definition levelno (l : Scraper.Level) : Z :=
  match l with
  | Scraper.DEBUG => 10
  | Scraper.INFO => 20
  | Scraper.WARNING => 30
  | Scraper.ERROR => 40
  | Scraper.CRITICAL => 50
  end.

(** A logger that the configuration does not mention, and none of whose
    ancestors but the root it mentions. *)
Definition unconfigured (n : LoggerName) : Prop :=
  Forall (λ q, q = [] ∨ (logger_key q ≠ "" ∧ logger_key q ≠ "urllib3"))
         (ancestry n).

(** [__name__] in [app/scraper/scraper.py]. *)
Definition scraper_logger : LoggerName := ["app"; "scraper"; "scraper"].

End LoggingSetup.

(** * Properties of the lifecycle wrapper *)

Module ScraperSpec.
Import Scraper.

Section Lifecycle.

Context {World : Type} (lib : Selenium World).


Ltac unfold_monad :=
  unfold mbind, M_bind, bind, mret, M_ret, ret, raise, try_except,
    try_finally, call, note, logger_log, get_self, update_self,
    except_WebDriverException in *.

(** ** Equations of [stop] *)

Lemma stop_not_started (m : Machine World) :
  _driver (self m) = None → stop lib m = (Return tt, add_call EvStop m).
Proof.
  intros Hd. unfold stop. unfold_monad. simpl. by rewrite Hd.
Qed.

Lemma stop_started (m : Machine World) (d : WebDriver) :
  _driver (self m) = Some d →
  stop lib m =
    let m0 := add_call (EvQuit d) (add_call EvStop m) in
    match quit lib d (world m) with
    | (Return _, w) =>
        (Return tt,
         modify_self clear_handles (add_record info_closed (set_world w m0)))
    | (Raise e, w) =>
        if exc_is_webdriver e then
          (Raise (DriverShutdownError (shutdown_msg e) e),
           modify_self clear_handles
             (add_record (error_record (shutdown_msg e)) (set_world w m0)))
        else
          (Raise (Lib e), modify_self clear_handles (set_world w m0))
    end.
Proof.
  intros Hd. unfold stop. unfold_monad. simpl. rewrite Hd. simpl.
  destruct (quit lib d (world m)) as [[[]|e] w]; simpl; [done|].
  by destruct (exc_is_webdriver e).
Qed.

Lemma count_stop_app (l1 l2 : list Event) :
  count_stop (l1 ++ l2) = (count_stop l1 + count_stop l2)%nat.
Proof. unfold count_stop. by rewrite List.filter_app, length_app. Qed.

Lemma stop_calls (m : Machine World) :
  calls (snd (stop lib m)) =
    (calls m ++ EvStop ::
       match _driver (self m) with Some d => [EvQuit d] | None => [] end)%list.
Proof.
  destruct (_driver (self m)) as [d|] eqn:Hd.
  - rewrite (stop_started m d Hd). simpl.
    destruct (quit lib d (world m)) as [[[]|e] w]; simpl;
      [|destruct (exc_is_webdriver e); simpl]; by rewrite <- app_assoc.
  - by rewrite (stop_not_started m Hd).
Qed.

Lemma stop_counted (m : Machine World) :
  count_stop (calls (snd (stop lib m))) = S (count_stop (calls m)).
Proof.
  rewrite stop_calls, count_stop_app.
  destruct (_driver (self m)); unfold count_stop; simpl; lia.
Qed.

Lemma stop_clears (m : Machine World) :
  _driver (self (snd (stop lib m))) = None.
Proof.
  destruct (_driver (self m)) as [d|] eqn:Hd.
  - rewrite (stop_started m d Hd). simpl.
    destruct (quit lib d (world m)) as [[[]|e] w]; simpl;
      [|destruct (exc_is_webdriver e); simpl]; done.
  - by rewrite (stop_not_started m Hd).
Qed.

(** ** Equations of [_configure_service] and [start] *)

Lemma configure_service_eq (m : Machine World) :
  _configure_service lib m =
    let p := service_path (self m) in
    let m0 := add_call (EvChromeService p) m in
    match ChromeService_new lib p (world m) with
    | (Return v, w) =>
        (Return tt, modify_self (set_service (Some v)) (set_world w m0))
    | (Raise e, w) =>
        if exc_is_webdriver e then
          (Raise (DriverInitializationError (service_msg e) e),
           add_record (error_record (service_msg e)) (set_world w m0))
        else (Raise (Lib e), set_world w m0)
    end.
Proof.
  unfold _configure_service, service_path. unfold_monad. simpl.
  destruct (truthy_path (driver_path (self m))); simpl;
    (destruct (ChromeService_new lib _ (world m)) as [[v|e] w]; simpl;
     [done | by destruct (exc_is_webdriver e)]).
Qed.

Lemma start_started (m : Machine World) (d : WebDriver) :
  _driver (self m) = Some d →
  start lib m = (Return d, add_record warning_started m).
Proof.
  intros Hd. unfold start. unfold_monad. simpl. by rewrite Hd.
Qed.

Lemma start_except_eq (e : LibraryException) (m : Machine World) :
  start_except lib e m =
    match stop lib (add_record (critical_record (startup_msg e)) m) with
    | (Return _, m') =>
        (Raise (DriverInitializationError (startup_msg e) e), m')
    | (Raise e', m') => (Raise e', m')
    end.
Proof.
  unfold start_except. unfold_monad. simpl.
  fold (critical_record (startup_msg e)). by destruct (stop lib _) as [[]].
Qed.

Lemma start_not_started (m : Machine World) :
  _driver (self m) = None →
  start lib m =
    let p := service_path (self m) in
    let m0 := add_call (EvChromeService p) m in
    match ChromeService_new lib p (world m) with
    | (Raise e, w) =>
        if exc_is_webdriver e then
          (Raise (DriverInitializationError (service_msg e) e),
           add_record (error_record (service_msg e)) (set_world w m0))
        else (Raise (Lib e), set_world w m0)
    | (Return v, w) =>
        let m1 := modify_self (set_service (Some v)) (set_world w m0) in
        let o := _configure_options (self m) in
        let m2 := add_call (EvChrome (Some v) o) m1 in
        match Chrome_new lib (Some v) o w with
        | (Raise e, w2) => start_caught lib e (set_world w2 m2)
        | (Return d, w2) =>
            let m3 := modify_self (set_driver (Some d)) (set_world w2 m2) in
            let t := implicit_wait (self m) in
            let m4 := add_call (EvImplicitlyWait d t) m3 in
            match implicitly_wait lib d t w2 with
            | (Raise e, w3) => start_caught lib e (set_world w3 m4)
            | (Return _, w3) =>
                (Return d, add_record info_started (set_world w3 m4))
            end
        end
    end.
Proof.
  intros Hd. unfold start, start_caught.
  unfold mbind at 1, M_bind at 1, bind at 1, get_self at 1. simpl.
  rewrite Hd. unfold try_except at 1.
  unfold mbind at 1, M_bind at 1, bind at 1.
  rewrite configure_service_eq. simpl.
  destruct (ChromeService_new lib _ (world m)) as [[v|e] w]; simpl.
  - unfold_monad. simpl.
    destruct (Chrome_new lib (Some v) _ w) as [[d|e] w2]; simpl.
    + change (_configure_options (set_service (Some v) (self m)))
        with (_configure_options (self m)).
      destruct (implicitly_wait lib d _ w2) as [[[]|e] w3]; simpl; [done|].
      by destruct (exc_is_webdriver e).
    + change (_configure_options (set_service (Some v) (self m)))
        with (_configure_options (self m)).
      by destruct (exc_is_webdriver e).
  - destruct (exc_is_webdriver e) eqn:He; simpl; [done|].
    unfold except_WebDriverException. by rewrite He.
Qed.

Lemma start_returns_handle (m m1 : Machine World) (d : WebDriver) :
  start lib m = (Return d, m1) → _driver (self m1) = Some d.
Proof.
  destruct (_driver (self m)) as [d0|] eqn:Hd.
  - rewrite (start_started m d0 Hd). intros [= <- <-]. exact Hd.
  - rewrite (start_not_started m Hd). simpl. unfold start_caught.
    destruct (ChromeService_new lib _ (world m)) as [[v|e] w].
    + destruct (Chrome_new lib (Some v) _ w) as [[d1|e] w2].
      * destruct (implicitly_wait lib d1 _ w2) as [[[]|e] w3].
        -- by intros [= <- <-].
        -- destruct (exc_is_webdriver e); [|done].
           rewrite start_except_eq. by destruct (stop lib _) as [[]].
      * destruct (exc_is_webdriver e); [|done].
        rewrite start_except_eq. by destruct (stop lib _) as [[]].
    + by destruct (exc_is_webdriver e).
Qed.

Lemma with_eq {A} (body : WebDriver → M World A) (m : Machine World) :
  with_ lib body m =
    match start lib m with
    | (Return d, m0) => with_block lib body d m0
    | (Raise e, m0) => (Raise e, m0)
    end.
Proof. reflexivity. Qed.

(** ** The claims *)

(** C1 (amended).  [stop] on a wrapper with a live handle leaves both
    [_driver] and [_service] at [None] on every path: when [quit] returns,
    when [quit] raises a [WebDriverException] (then [DriverShutdownError]
    wrapping it is raised) and when [quit] raises anything else (then that
    exception leaves [stop] as it is).  Without a handle [stop] returns
    and changes neither the wrapper, nor the world, nor the log. *)
Theorem stop_clears_on_every_path (m : Machine World) :
  let '(r, m') := stop lib m in
  match _driver (self m) with
  | Some d =>
      _driver (self m') = None ∧ _service (self m') = None ∧
      match quit lib d (world m) with
      | (Return _, _) => r = Return tt
      | (Raise e, _) =>
          r = if exc_is_webdriver e
              then Raise (DriverShutdownError (shutdown_msg e) e)
              else Raise (Lib e)
      end
  | None =>
      r = Return tt ∧ self m' = self m ∧ world m' = world m ∧
      records m' = records m
  end.
Proof.
  destruct (_driver (self m)) as [d|] eqn:Hd.
  - rewrite (stop_started m d Hd). simpl.
    destruct (quit lib d (world m)) as [[[]|e] w]; [done|].
    by destruct (exc_is_webdriver e).
  - by rewrite (stop_not_started m Hd).
Qed.

(** C2 (amended).  A [with] statement whose [__enter__] returned enters
    [stop] exactly once on the way out, whether the body returned or
    raised.  When that [stop] returns, a body that returned gives its
    value and a body that raised has its exception logged and raised
    again; when that [stop] raises, its exception is the one that leaves
    the statement. *)
Theorem with_statement_teardown {A} (body : WebDriver → M World A)
    (m : Machine World) :
  match start lib m with
  | (Raise e, m0) => with_ lib body m = (Raise e, m0)
  | (Return d, m0) =>
      let '(rb, m1) := body d m0 in
      let '(rs, ms) := stop lib m1 in
      let '(r, m2) := with_ lib body m in
      count_stop (calls m2) = S (count_stop (calls m1)) ∧
      match rs, rb with
      | Raise e', _ => r = Raise e' ∧ m2 = ms
      | Return _, Return a => r = Return (Some a) ∧ m2 = ms
      | Return _, Raise e =>
          r = Raise e ∧ m2 = add_record (error_in_block e) ms
      end
  end.
Proof.
  rewrite with_eq.
  destruct (start lib m) as [[d|e0] m0]; [|done].
  unfold with_block, __exit__.
  destruct (body d m0) as [rb m1].
  pose proof (stop_counted m1) as Hc.
  unfold_monad.
  destruct (stop lib m1) as [[[]|e'] ms]; simpl in *;
    destruct rb as [a|e]; simpl; done.
Qed.

(** C4.  After a [start] that returned a handle, the next [start] returns
    the same handle, leaves the wrapper, the world and the list of library
    calls as they are, and adds one record to the log, a warning. *)
Theorem start_twice_same_handle (m m1 : Machine World) (d : WebDriver) :
  start lib m = (Return d, m1) →
  let '(r, m2) := start lib m1 in
  r = Return d ∧ self m2 = self m1 ∧ world m2 = world m1 ∧
  calls m2 = calls m1 ∧
  records m2 = (records m1 ++ [warning_started])%list.
Proof.
  intros H. apply start_returns_handle in H.
  by rewrite (start_started m1 d H).
Qed.

(** C3 (amended).  A [WebDriverException] raised by the construction of
    the driver or by [implicitly_wait] is logged as critical, then [stop]
    is entered once, and when [stop] returns [DriverInitializationError]
    wrapping the exception is raised (after a failed construction there is
    no handle and [stop] does return).  A [WebDriverException] raised
    while the service is configured becomes a [DriverInitializationError]
    inside [_configure_service] and leaves [start] without [stop] being
    entered. *)
Theorem start_webdriver_failure (m : Machine World) (st : Stage)
    (e : LibraryException) (w : World) :
  _driver (self m) = None →
  startup_failure lib m = Some (st, e, w) →
  exc_is_webdriver e = true →
  match st with
  | AtService =>
      ∃ m', start lib m =
              (Raise (DriverInitializationError (service_msg e) e), m') ∧
            world m' = w ∧
            calls m' =
              (calls m ++ [EvChromeService (service_path (self m))])%list
  | _ =>
      ∃ m1, world m1 = w ∧
            records m1 =
              (records m ++ [critical_record (startup_msg e)])%list ∧
            count_stop (calls m1) = count_stop (calls m) ∧
            start lib m =
              match stop lib m1 with
              | (Return _, m') =>
                  (Raise (DriverInitializationError (startup_msg e) e), m')
              | (Raise e', m') => (Raise e', m')
              end ∧
            (st = AtChrome → fst (stop lib m1) = Return tt)
  end.
Proof.
  intros Hd Hf He. rewrite (start_not_started m Hd).
  unfold startup_failure in Hf. simpl. unfold start_caught.
  destruct (ChromeService_new lib _ (world m)) as [[v|e1] w1].
  - destruct (Chrome_new lib (Some v) _ w1) as [[d|e2] w2].
    + destruct (implicitly_wait lib d _ w2) as [[[]|e3] w3]; [done|].
      injection Hf as <- <- <-. rewrite He, start_except_eq.
      eexists. split_and!; [| |  |reflexivity|done]; [done|done|].
      simpl. rewrite !count_stop_app. unfold count_stop. simpl. lia.
    + injection Hf as <- <- <-. rewrite He, start_except_eq.
      eexists. split_and!; [| |  |reflexivity|]; [done|done| |].
      * simpl. rewrite !count_stop_app. unfold count_stop. simpl. lia.
      * intros _. by rewrite stop_not_started.
  - injection Hf as <- <- <-. rewrite He. eexists. by split_and!.
Qed.


Example configure_options_headless :
  arguments (_configure_options (__init__ None true 10%float)) =
    ["--disable-infobars"; "--disable-dev-shm-usage"; "--no-sandbox";
     "--headless"; "--disable-gpu"] ∧
  arguments (_configure_options (__init__ None false 10%float)) =
    ["--disable-infobars"; "--disable-dev-shm-usage"; "--no-sandbox"].
Proof. by split. Qed.

(** ** The configuration is never written *)

Lemma stop_keeps_configuration (m : Machine World) :
  configuration (self (snd (stop lib m))) = configuration (self m).
Proof.
  destruct (_driver (self m)) as [d|] eqn:Hd.
  - rewrite (stop_started m d Hd). simpl.
    destruct (quit lib d (world m)) as [[[]|e] w]; [done|].
    by destruct (exc_is_webdriver e).
  - by rewrite (stop_not_started m Hd).
Qed.

Lemma start_except_keeps_configuration (e : LibraryException)
    (m : Machine World) :
  configuration (self (snd (start_except lib e m))) = configuration (self m).
Proof.
  rewrite start_except_eq.
  pose proof (stop_keeps_configuration
                (add_record (critical_record (startup_msg e)) m)) as H.
  by destruct (stop lib _) as [[]].
Qed.

Lemma start_keeps_configuration (m : Machine World) :
  configuration (self (snd (start lib m))) = configuration (self m).
Proof.
  destruct (_driver (self m)) as [d0|] eqn:Hd.
  - by rewrite (start_started m d0 Hd).
  - rewrite (start_not_started m Hd). simpl. unfold start_caught.
    destruct (ChromeService_new lib _ (world m)) as [[v|e] w].
    + destruct (Chrome_new lib (Some v) _ w) as [[d1|e] w2].
      * destruct (implicitly_wait lib d1 _ w2) as [[[]|e] w3]; [done|].
        destruct (exc_is_webdriver e); [|done].
        by rewrite start_except_keeps_configuration.
      * destruct (exc_is_webdriver e); [|done].
        by rewrite start_except_keeps_configuration.
    + by destruct (exc_is_webdriver e).
Qed.

(** C6.  No sequence of calls of [start] and [stop], failing or not,
    changes the driver path, the headless flag or the implicit wait. *)
Theorem configuration_never_modified (ops : list Op) (m : Machine World) :
  configuration (self (run_ops lib ops m)) = configuration (self m).
Proof.
  revert m. induction ops as [|o ops IH]; intros m; [done|].
  unfold run_ops in *. simpl. rewrite IH.
  destruct o; simpl; [apply start_keeps_configuration
                     |apply stop_keeps_configuration].
Qed.

(** C10.  A library exception that is not a [WebDriverException], raised
    by the service, by the construction of the driver or by
    [implicitly_wait], leaves [start] as it is: no
    [DriverInitializationError], nothing logged, and [stop] not entered. *)
Theorem start_other_failure_propagates (m : Machine World) (st : Stage)
    (e : LibraryException) (w : World) :
  _driver (self m) = None →
  startup_failure lib m = Some (st, e, w) →
  exc_is_webdriver e = false →
  ∃ m', start lib m = (Raise (Lib e), m') ∧
        world m' = w ∧ records m' = records m ∧
        count_stop (calls m') = count_stop (calls m).
Proof.
  intros Hd Hf He. rewrite (start_not_started m Hd).
  unfold startup_failure in Hf. simpl. unfold start_caught.
  destruct (ChromeService_new lib _ (world m)) as [[v|e1] w1].
  - destruct (Chrome_new lib (Some v) _ w1) as [[d|e2] w2].
    + destruct (implicitly_wait lib d _ w2) as [[[]|e3] w3]; [done|].
      injection Hf as <- <- <-. rewrite He.
      eexists. split_and!; [reflexivity|done|done|].
      simpl. rewrite !count_stop_app. unfold count_stop. simpl. lia.
    + injection Hf as <- <- <-. rewrite He.
      eexists. split_and!; [reflexivity|done|done|].
      simpl. rewrite !count_stop_app. unfold count_stop. simpl. lia.
  - injection Hf as <- <- <-. rewrite He.
    eexists. split_and!; [reflexivity|done|done|].
    simpl. rewrite !count_stop_app. unfold count_stop. simpl. lia.
Qed.

End Lifecycle.

(** ** Concrete runs *)

(** C1, as first stated, fails: when [quit] raises an exception that is
    not a [WebDriverException], [stop] clears the handle but raises that
    exception itself, not a [DriverShutdownError]. *)
Lemma stop_other_failure_not_wrapped :
  let lib := scripted (quit_fails MaxRetryError) in
  _driver (self started) = Some driver1 ∧
  quit lib driver1 (world started) = (Raise MaxRetryError, 2%nat) ∧
  fst (stop lib started) = Raise (Lib MaxRetryError) ∧
  ¬ (∃ msg cause,
       fst (stop lib started) = Raise (DriverShutdownError msg cause)).
Proof.
  simpl. split_and!; [done..|]. intros (msg & cause & H).
  vm_compute in H. discriminate H.
Qed.

Example stop_without_handle :
  stop (scripted healthy) (fresh (__init__ None true 10%float)) =
    (Return tt, add_call EvStop (fresh (__init__ None true 10%float))).
Proof. reflexivity. Qed.

Example stop_webdriver_failure_wrapped :
  stop (scripted (quit_fails InvalidSessionIdException)) started =
    (Raise (DriverShutdownError (shutdown_msg InvalidSessionIdException)
              InvalidSessionIdException),
     {| self := __init__ None true 10%float; world := 2%nat;
        records := [error_record (shutdown_msg InvalidSessionIdException)];
        calls := [EvStop; EvQuit driver1] |}).
Proof. reflexivity. Qed.

(** C2, as first stated, fails: the body raises [ValueError], the [stop]
    of the exit path raises [DriverShutdownError], and that one leaves the
    statement; the [ValueError] is neither logged nor raised again. *)
Lemma with_stop_failure_replaces_exception :
  let lib := scripted (quit_fails InvalidSessionIdException) in
  let body : WebDriver → M nat unit := λ _, raise (Lib ValueError) in
  let m := fresh (__init__ None true 10%float) in
  let '(r, m') := with_ lib body m in
  fst (__enter__ lib m) = Return driver1 ∧
  fst (body driver1 (snd (__enter__ lib m))) = Raise (Lib ValueError) ∧
  r = Raise (DriverShutdownError (shutdown_msg InvalidSessionIdException)
               InvalidSessionIdException) ∧
  r ≠ Raise (Lib ValueError) ∧
  records m' = [info_started;
                error_record (shutdown_msg InvalidSessionIdException)] ∧
  (error_in_block (Lib ValueError) ∉ records m') ∧
  count_stop (calls m') = 1%nat.
Proof.
  simpl. split_and!; [done..| |done].
  intros [[=]|[=]%list_elem_of_singleton]%elem_of_cons.
Qed.

Example with_body_exception_rethrown :
  let body : WebDriver → M nat unit := λ _, raise (Lib ValueError) in
  with_ (scripted healthy) body (fresh (__init__ None true 10%float)) =
    (Raise (Lib ValueError),
     {| self := __init__ None true 10%float; world := 2%nat;
        records := [info_started; info_closed;
                    error_in_block (Lib ValueError)];
        calls := [EvChromeService None;
                  EvChrome (Some {| service_id := 0 |})
                    (_configure_options (__init__ None true 10%float));
                  EvImplicitlyWait driver1 10%float;
                  EvStop; EvQuit driver1] |}).
Proof. reflexivity. Qed.

(** C3, as first stated, fails: the construction of the driver raises an
    exception that is not a [WebDriverException]; [start] raises that
    exception, no [DriverInitializationError], and [stop] is not entered. *)
Lemma start_other_failure_no_cleanup :
  let lib := scripted (chrome_fails MaxRetryError) in
  let m := fresh (__init__ None false 10%float) in
  startup_failure lib m = Some (AtChrome, MaxRetryError, 1%nat) ∧
  fst (start lib m) = Raise (Lib MaxRetryError) ∧
  (∀ msg cause,
     fst (start lib m) ≠ Raise (DriverInitializationError msg cause)) ∧
  count_stop (calls (snd (start lib m))) = 0%nat.
Proof. simpl. split_and!; done. Qed.

(** Two more runs off the first statement of C3: a [WebDriverException]
    from the service is wrapped without [stop] being entered, and a
    [stop] that fails during the cleanup raises its own error. *)
Example start_service_failure_no_stop :
  let lib := scripted (service_fails SessionNotCreatedException) in
  let m := fresh (__init__ None false 10%float) in
  fst (start lib m) =
    Raise (DriverInitializationError (service_msg SessionNotCreatedException)
             SessionNotCreatedException) ∧
  calls (snd (start lib m)) = [EvChromeService None].
Proof. by simpl. Qed.

Example start_cleanup_failure :
  let lib := scripted (wait_and_quit_fail SessionNotCreatedException
                         InvalidSessionIdException) in
  let m := fresh (__init__ None false 10%float) in
  fst (start lib m) =
    Raise (DriverShutdownError (shutdown_msg InvalidSessionIdException)
             InvalidSessionIdException) ∧
  _driver (self (snd (start lib m))) = None.
Proof. by simpl. Qed.

(** The amended C3 at a run where [implicitly_wait] raises
    [SessionNotCreatedException]. *)
Lemma start_webdriver_failure_witness :
  let lib := scripted (wait_fails SessionNotCreatedException) in
  let m := fresh (__init__ (Some "/opt/chromedriver") true 10%float) in
  ∃ m1, world m1 = 2%nat ∧
        records m1 =
          (records m ++
           [critical_record (startup_msg SessionNotCreatedException)])%list ∧
        count_stop (calls m1) = count_stop (calls m) ∧
        start lib m =
          match stop lib m1 with
          | (Return _, m') =>
              (Raise (DriverInitializationError
                        (startup_msg SessionNotCreatedException)
                        SessionNotCreatedException), m')
          | (Raise e', m') => (Raise e', m')
          end ∧
        (AtImplicitlyWait = AtChrome → fst (stop lib m1) = Return tt).
Proof.
  exact (start_webdriver_failure
           (scripted (wait_fails SessionNotCreatedException))
           (fresh (__init__ (Some "/opt/chromedriver") true 10%float))
           AtImplicitlyWait SessionNotCreatedException 2%nat
           eq_refl eq_refl eq_refl).
Defined.

(** C4 at a run of the healthy library. *)
Lemma start_twice_same_handle_witness :
  let lib := scripted healthy in
  let m := fresh (__init__ None true 10%float) in
  let m1 := snd (start lib m) in
  start lib m = (Return driver1, m1) ∧
  let '(r, m2) := start lib m1 in
  r = Return driver1 ∧ self m2 = self m1 ∧ world m2 = world m1 ∧
  calls m2 = calls m1 ∧
  records m2 = (records m1 ++ [warning_started])%list.
Proof.
  split; [reflexivity|].
  exact (start_twice_same_handle (scripted healthy)
           (fresh (__init__ None true 10%float))
           (snd (start (scripted healthy)
                   (fresh (__init__ None true 10%float))))
           driver1 eq_refl).
Defined.

(** C10 at a run where [implicitly_wait] raises [ValueError]. *)
Lemma start_other_failure_propagates_witness :
  let lib := scripted (wait_fails ValueError) in
  let m := fresh (__init__ None false 10%float) in
  ∃ m', start lib m = (Raise (Lib ValueError), m') ∧
        world m' = 2%nat ∧ records m' = records m ∧
        count_stop (calls m') = count_stop (calls m).
Proof.
  exact (start_other_failure_propagates
           (scripted (wait_fails ValueError))
           (fresh (__init__ None false 10%float))
           AtImplicitlyWait ValueError 2%nat eq_refl eq_refl eq_refl).
Defined.

(** ** Further properties of the lifecycle *)

Section MoreLifecycle.

Context {World : Type} (lib : Selenium World).

(** *** What a state looks like after [stop] and after [start] *)

Lemma stop_self (m : Machine World) :
  self (snd (stop lib m)) =
    match _driver (self m) with
    | Some _ => clear_handles (self m)
    | None => self m
    end.
Proof.
  destruct (_driver (self m)) as [d|] eqn:Hd.
  - rewrite (stop_started lib m d Hd). simpl.
    destruct (quit lib d (world m)) as [[[]|e] w]; [done|].
    by destruct (exc_is_webdriver e).
  - by rewrite (stop_not_started lib m Hd).
Qed.

Lemma start_except_self (e : LibraryException) (m : Machine World) :
  self (snd (start_except lib e m)) = self (snd (stop lib
    (add_record (critical_record (startup_msg e)) m))).
Proof. rewrite start_except_eq. by destruct (stop lib _) as [[]]. Qed.

Lemma start_except_raises (e : LibraryException) (m : Machine World) :
  ∃ x, fst (start_except lib e m) = Raise x.
Proof. rewrite start_except_eq. destruct (stop lib _) as [[]]; eauto. Qed.

Lemma start_except_calls (e : LibraryException) (m : Machine World) :
  calls (snd (start_except lib e m)) =
    (calls m ++ EvStop ::
       match _driver (self m) with Some d => [EvQuit d] | None => [] end)%list.
Proof.
  rewrite start_except_eq.
  pose proof (stop_calls lib
                (add_record (critical_record (startup_msg e)) m)) as H.
  by destruct (stop lib _) as [[]].
Qed.

(** X1.  On a wrapper without a handle, when the three library calls
    return, [start] returns the driver the library built and stores it
    with the service; the library saw, in this order, the service path,
    the options of [_configure_options] with that service, and the
    implicit wait of the wrapper; one record is logged, at [INFO]. *)
Theorem start_builds_and_stores (m : Machine World) (v : ChromeService)
    (d : WebDriver) (w1 w2 w3 : World) :
  _driver (self m) = None →
  ChromeService_new lib (service_path (self m)) (world m) = (Return v, w1) →
  Chrome_new lib (Some v) (_configure_options (self m)) w1 = (Return d, w2) →
  implicitly_wait lib d (implicit_wait (self m)) w2 = (Return tt, w3) →
  start lib m =
    (Return d,
     {| self := set_driver (Some d) (set_service (Some v) (self m));
        world := w3;
        records := (records m ++ [info_started])%list;
        calls := (calls m ++
                  [EvChromeService (service_path (self m));
                   EvChrome (Some v) (_configure_options (self m));
                   EvImplicitlyWait d (implicit_wait (self m))])%list |}).
Proof.
  intros Hd Hs Hc Hw. rewrite (start_not_started lib m Hd). simpl.
  rewrite Hs, Hc, Hw. simpl. unfold add_record, set_world, add_call. simpl.
  by rewrite <- !app_assoc.
Qed.

(** X2.  The first thing [start] does on a wrapper without a handle is to
    ask the library for a service, with the driver path when it is a
    non-empty string and with no path when it is [None] or the empty
    string. *)
Theorem start_asks_for_service_first (m : Machine World) :
  _driver (self m) = None →
  ∃ rest,
    calls (snd (start lib m)) =
      (calls m ++
       EvChromeService
         (match driver_path (self m) with
          | Some "" | None => None
          | Some p => Some p
          end) :: rest)%list.
Proof.
  intros Hd. rewrite (start_not_started lib m Hd). simpl.
  assert (service_path (self m) =
            match driver_path (self m) with
            | Some "" | None => None
            | Some p => Some p
            end) as <-.
  { unfold service_path, truthy_path.
    destruct (driver_path (self m)) as [[|a p]|]; done. }
  unfold start_caught.
  destruct (ChromeService_new lib _ (world m)) as [[v|e] w].
  - destruct (Chrome_new lib (Some v) _ w) as [[d|e] w2].
    + destruct (implicitly_wait lib d _ w2) as [[[]|e] w3].
      * eexists. simpl. rewrite <- !app_assoc. done.
      * destruct (exc_is_webdriver e).
        -- rewrite start_except_calls. simpl.
           eexists. rewrite <- !app_assoc. done.
        -- eexists. simpl. rewrite <- !app_assoc. done.
    + destruct (exc_is_webdriver e).
      * rewrite start_except_calls. simpl.
        eexists. rewrite <- !app_assoc. done.
      * eexists. simpl. rewrite <- !app_assoc. done.
  - destruct (exc_is_webdriver e); by eexists.
Qed.

(** X3.  After a [start] that raised on a wrapper without a handle, the
    wrapper holds no handle, with one exception: when [implicitly_wait]
    raised something that is not a [WebDriverException], the driver just
    built stays in [_driver], it was not quit, and the exception is the
    one of the library. *)
Theorem handle_after_failed_start (m m' : Machine World) (x : PyException) :
  _driver (self m) = None →
  start lib m = (Raise x, m') →
  match startup_failure lib m with
  | Some (AtImplicitlyWait, e, _) =>
      if exc_is_webdriver e then _driver (self m') = None
      else x = Lib e ∧
           ∃ v d,
             _driver (self m') = Some d ∧ _service (self m') = Some v ∧
             calls m' =
               (calls m ++
                [EvChromeService (service_path (self m));
                 EvChrome (Some v) (_configure_options (self m));
                 EvImplicitlyWait d (implicit_wait (self m))])%list
  | _ => _driver (self m') = None
  end.
Proof.
  intros Hd. rewrite (start_not_started lib m Hd).
  unfold startup_failure, start_caught. simpl.
  destruct (ChromeService_new lib _ (world m)) as [[v|e] w].
  - destruct (Chrome_new lib (Some v) _ w) as [[d|e] w2].
    + destruct (implicitly_wait lib d _ w2) as [[[]|e] w3]; [done|].
      destruct (exc_is_webdriver e).
      * intros H. apply (f_equal snd) in H. simpl in H. subst m'.
        rewrite start_except_self. apply stop_clears.
      * intros [= <- <-]. split; [done|]. exists v, d. simpl.
        split_and!; [done..|]. by rewrite <- !app_assoc.
    + destruct (exc_is_webdriver e).
      * intros H. apply (f_equal snd) in H. simpl in H. subst m'.
        rewrite start_except_self. apply stop_clears.
      * by intros [= <- <-].
  - destruct (exc_is_webdriver e); by intros [= <- <-].
Qed.

(** X4.  When the construction of the driver fails, whatever the
    exception, the service built before it stays in [_service] although
    there is no handle, and a later [stop] does not clear it. *)
Theorem service_kept_after_failed_construction (m : Machine World)
    (e : LibraryException) (w : World) :
  _driver (self m) = None →
  startup_failure lib m = Some (AtChrome, e, w) →
  let m' := snd (start lib m) in
  _driver (self m') = None ∧
  is_Some (_service (self m')) ∧
  self (snd (stop lib m')) = self m'.
Proof.
  intros Hd. simpl. rewrite (start_not_started lib m Hd).
  unfold startup_failure, start_caught. simpl.
  destruct (ChromeService_new lib _ (world m)) as [[v|e1] w1]; [|done].
  destruct (Chrome_new lib (Some v) _ w1) as [[d|e2] w2].
  { by destruct (implicitly_wait lib d _ w2) as [[[]|e3] w3]. }
  intros _.
  assert (∀ m1 : Machine World,
            _driver (self m1) = None → is_Some (_service (self m1)) →
            _driver (self m1) = None ∧ is_Some (_service (self m1)) ∧
            self (snd (stop lib m1)) = self m1) as Hkeep.
  { intros m1 H1 H2. split_and!; [done..|]. by rewrite stop_self, H1. }
  destruct (exc_is_webdriver e2).
  - apply Hkeep.
    + rewrite start_except_self, stop_self. simpl. by rewrite Hd.
    + rewrite start_except_self, stop_self. simpl. rewrite Hd. by eexists.
  - apply Hkeep; simpl; [done|by eexists].
Qed.

(** X5.  [stop] is idempotent: right after a [stop], returning or raising,
    another [stop] returns at once; it does not call the library and
    leaves the wrapper, the world and the log as they are. *)
Theorem stop_twice (m : Machine World) :
  let m1 := snd (stop lib m) in
  stop lib m1 = (Return tt, add_call EvStop m1).
Proof. simpl. apply stop_not_started, stop_clears. Qed.

(** X6.  After a [stop], [start] does not return the old handle with a
    warning: it goes to the library again, first for a service with the
    path the wrapper was built with. *)
Theorem start_after_stop_builds_anew (m : Machine World) :
  let m1 := snd (stop lib m) in
  ∃ rest,
    calls (snd (start lib m1)) =
      (calls m1 ++ EvChromeService (service_path (self m)) :: rest)%list.
Proof.
  simpl. set (m1 := snd (stop lib m)).
  assert (_driver (self m1) = None) as Hd by apply stop_clears.
  assert (service_path (self m1) = service_path (self m)) as <-.
  { pose proof (stop_keeps_configuration lib m) as Hc. fold m1 in Hc.
    unfold configuration in Hc. injection Hc as Hp _ _.
    unfold service_path. by rewrite Hp. }
  rewrite (start_not_started lib m1 Hd). simpl. unfold start_caught.
  destruct (ChromeService_new lib _ (world m1)) as [[v|e] w].
  - destruct (Chrome_new lib (Some v) _ w) as [[d|e] w2].
    + destruct (implicitly_wait lib d _ w2) as [[[]|e] w3].
      * eexists. simpl. rewrite <- !app_assoc. done.
      * destruct (exc_is_webdriver e).
        -- rewrite start_except_calls. simpl.
           eexists. rewrite <- !app_assoc. done.
        -- eexists. simpl. rewrite <- !app_assoc. done.
    + destruct (exc_is_webdriver e).
      * rewrite start_except_calls. simpl.
        eexists. rewrite <- !app_assoc. done.
      * eexists. simpl. rewrite <- !app_assoc. done.
  - destruct (exc_is_webdriver e); by eexists.
Qed.

(** *** Invariants along sequences of calls *)

Lemma start_keeps_service_with_handle (m : Machine World) :
  (is_Some (_driver (self m)) → is_Some (_service (self m))) →
  is_Some (_driver (self (snd (start lib m)))) →
  is_Some (_service (self (snd (start lib m)))).
Proof.
  intros Hinv.
  destruct (_driver (self m)) as [d0|] eqn:Hd.
  - rewrite (start_started lib m d0 Hd). simpl. rewrite Hd. done.
  - rewrite (start_not_started lib m Hd). simpl. unfold start_caught.
    destruct (ChromeService_new lib _ (world m)) as [[v|e] w].
    + destruct (Chrome_new lib (Some v) _ w) as [[d|e] w2].
      * destruct (implicitly_wait lib d _ w2) as [[[]|e] w3];
          [by eexists|].
        destruct (exc_is_webdriver e); [|by eexists].
        rewrite start_except_self, stop_clears. by intros [? [=]].
      * destruct (exc_is_webdriver e); [|by eexists].
        rewrite start_except_self, stop_clears. by intros [? [=]].
    + destruct (exc_is_webdriver e); simpl; rewrite Hd; by intros [? [=]].
Qed.

(** X7.  Along every sequence of calls of [start] and [stop], failing or
    not, a wrapper that holds a handle holds a service too, provided this
    was so at the beginning (as it is for a wrapper just built). *)
Theorem handle_never_without_service (ops : list Op) (m : Machine World) :
  (is_Some (_driver (self m)) → is_Some (_service (self m))) →
  is_Some (_driver (self (run_ops lib ops m))) →
  is_Some (_service (self (run_ops lib ops m))).
Proof.
  revert m. induction ops as [|o ops IH]; intros m Hinv; [done|].
  unfold run_ops in *. simpl. apply IH.
  destruct o; simpl.
  - by apply start_keeps_service_with_handle.
  - rewrite stop_clears. by intros [? [=]].
Qed.

(** X8.  A [with] statement whose [__enter__] returned leaves the wrapper
    without a handle, whatever the body did and however the statement
    ends. *)
Theorem with_releases_handle {A} (body : WebDriver → M World A)
    (m m0 : Machine World) (d : WebDriver) :
  start lib m = (Return d, m0) →
  _driver (self (snd (with_ lib body m))) = None.
Proof.
  intros Hs. rewrite with_eq, Hs. unfold with_block, __exit__.
  destruct (body d m0) as [rb m1].
  pose proof (stop_clears lib m1) as Hc.
  unfold mbind, M_bind, bind, mret, M_ret, ret, logger_log.
  destruct (stop lib m1) as [[[]|e'] ms]; simpl in *;
    destruct rb as [a|e]; simpl; done.
Qed.

Lemma stop_appends_records (m : Machine World) :
  ∃ l, records (snd (stop lib m)) = (records m ++ l)%list ∧
       Forall (λ r, levelname r ≠ DEBUG) l.
Proof.
  destruct (_driver (self m)) as [d|] eqn:Hd.
  - rewrite (stop_started lib m d Hd). simpl.
    destruct (quit lib d (world m)) as [[[]|e] w].
    + exists [info_closed]. split; [done|]. by repeat constructor.
    + destruct (exc_is_webdriver e).
      * eexists [_]. split; [done|]. by repeat constructor.
      * exists []. split; [by rewrite app_nil_r|constructor].
  - rewrite (stop_not_started lib m Hd). exists [].
    split; [by rewrite app_nil_r|constructor].
Qed.

Lemma start_except_appends_records (e : LibraryException)
    (m : Machine World) :
  ∃ l, records (snd (start_except lib e m)) = (records m ++ l)%list ∧
       Forall (λ r, levelname r ≠ DEBUG) l.
Proof.
  rewrite start_except_eq.
  destruct (stop_appends_records
              (add_record (critical_record (startup_msg e)) m))
    as (l & Hl & Hf).
  exists (critical_record (startup_msg e) :: l). split.
  - destruct (stop lib _) as [[] ?]; simpl in *;
      by rewrite Hl, <- app_assoc.
  - by constructor.
Qed.

Lemma start_appends_records (m : Machine World) :
  ∃ l, records (snd (start lib m)) = (records m ++ l)%list ∧
       Forall (λ r, levelname r ≠ DEBUG) l.
Proof.
  destruct (_driver (self m)) as [d0|] eqn:Hd.
  - rewrite (start_started lib m d0 Hd). exists [warning_started].
    split; [done|]. by repeat constructor.
  - rewrite (start_not_started lib m Hd). simpl. unfold start_caught.
    destruct (ChromeService_new lib _ (world m)) as [[v|e] w].
    + destruct (Chrome_new lib (Some v) _ w) as [[d|e] w2].
      * destruct (implicitly_wait lib d _ w2) as [[[]|e] w3].
        -- exists [info_started]. split; [done|]. by repeat constructor.
        -- destruct (exc_is_webdriver e).
           ++ match goal with
              | |- context [start_except lib e ?mm] =>
                  destruct (start_except_appends_records e mm)
                    as (l & Hl & Fl)
              end.
              exists l. split; [exact Hl|exact Fl].
           ++ exists []. split; [by rewrite app_nil_r|constructor].
      * destruct (exc_is_webdriver e).
        -- match goal with
           | |- context [start_except lib e ?mm] =>
               destruct (start_except_appends_records e mm)
                 as (l & Hl & Fl)
           end.
           exists l. split; [exact Hl|exact Fl].
        -- exists []. split; [by rewrite app_nil_r|constructor].
    + destruct (exc_is_webdriver e).
      * eexists [_]. split; [done|]. by repeat constructor.
      * exists []. split; [by rewrite app_nil_r|constructor].
Qed.

Lemma run_ops_appends_records (ops : list Op) (m : Machine World) :
  ∃ l, records (run_ops lib ops m) = (records m ++ l)%list ∧
       Forall (λ r, levelname r ≠ DEBUG) l.
Proof.
  revert m. induction ops as [|o ops IH]; intros m.
  - exists []. split; [by rewrite app_nil_r|constructor].
  - unfold run_ops in *. simpl.
    destruct (IH (run_op lib o m)) as (l2 & H2 & F2).
    assert (∃ l1, records (run_op lib o m) = (records m ++ l1)%list ∧
                  Forall (λ r, levelname r ≠ DEBUG) l1) as (l1 & H1 & F1).
    { destruct o; [apply start_appends_records|apply stop_appends_records]. }
    exists (l1 ++ l2)%list. split.
    + by rewrite H2, H1, <- app_assoc.
    + by apply Forall_app.
Qed.

(** X9.  The log only grows, and the wrapper never logs below [INFO]:
    after any sequence of calls of [start] and [stop] the records are the
    old ones followed by records at [INFO], [WARNING], [ERROR] or
    [CRITICAL]. *)
Theorem log_grows_at_info_or_above (ops : list Op) (m : Machine World) :
  ∃ l, records (run_ops lib ops m) = (records m ++ l)%list ∧
       Forall (λ r, levelname r ∈ [INFO; WARNING; ERROR; CRITICAL]) l.
Proof.
  destruct (run_ops_appends_records ops m) as (l & Hl & Fl).
  exists l. split; [done|]. eapply Forall_impl; [exact Fl|].
  intros r Hr. simpl in Hr. destruct (levelname r); [done|set_solver..].
Qed.

End MoreLifecycle.

(** X1 at a run of the healthy library with a driver path. *)
Lemma start_builds_and_stores_witness :
  let s := __init__ (Some "/opt/chromedriver") true 10%float in
  start (scripted healthy) (fresh s) =
    (Return driver1,
     {| self := set_driver (Some driver1)
                  (set_service (Some {| service_id := 0 |}) s);
        world := 2%nat;
        records := [info_started];
        calls := [EvChromeService (Some "/opt/chromedriver");
                  EvChrome (Some {| service_id := 0 |})
                    (_configure_options s);
                  EvImplicitlyWait driver1 10%float] |}).
Proof.
  exact (start_builds_and_stores (scripted healthy)
           (fresh (__init__ (Some "/opt/chromedriver") true 10%float))
           {| service_id := 0 |} driver1 1%nat 2%nat 2%nat
           eq_refl eq_refl eq_refl eq_refl).
Defined.

(** X2 at a wrapper built with the empty string as driver path. *)
Lemma start_asks_for_service_first_witness :
  ∃ rest,
    calls (snd (start (scripted healthy)
                  (fresh (__init__ (Some "") false 10%float)))) =
      EvChromeService None :: rest.
Proof.
  exact (start_asks_for_service_first (scripted healthy)
           (fresh (__init__ (Some "") false 10%float)) eq_refl).
Defined.

(** X3 at a run where [implicitly_wait] raises [ValueError]: the driver
    stays in the wrapper. *)
Lemma handle_after_failed_start_witness :
  let lib := scripted (wait_fails ValueError) in
  let m := fresh (__init__ None false 10%float) in
  Lib ValueError = Lib ValueError ∧
  ∃ v d,
    _driver (self (snd (start lib m))) = Some d ∧
    _service (self (snd (start lib m))) = Some v ∧
    calls (snd (start lib m)) =
      [EvChromeService None;
       EvChrome (Some v) (_configure_options (self m));
       EvImplicitlyWait d 10%float].
Proof.
  exact (handle_after_failed_start (scripted (wait_fails ValueError))
           (fresh (__init__ None false 10%float))
           (snd (start (scripted (wait_fails ValueError))
                   (fresh (__init__ None false 10%float))))
           (Lib ValueError) eq_refl eq_refl).
Defined.

(** X4 at a run where the construction raises
    [SessionNotCreatedException]. *)
Lemma service_kept_after_failed_construction_witness :
  let lib := scripted (chrome_fails SessionNotCreatedException) in
  let m' := snd (start lib (fresh (__init__ None false 10%float))) in
  _driver (self m') = None ∧
  is_Some (_service (self m')) ∧
  self (snd (stop lib m')) = self m'.
Proof.
  exact (service_kept_after_failed_construction
           (scripted (chrome_fails SessionNotCreatedException))
           (fresh (__init__ None false 10%float))
           SessionNotCreatedException 1%nat eq_refl eq_refl).
Defined.

(** X7 at a wrapper just built, through a start that leaves the driver
    behind, a second start and a stop that fails. *)
Lemma handle_never_without_service_witness :
  let lib := scripted (wait_and_quit_fail ValueError MaxRetryError) in
  let m := fresh (__init__ None true 10%float) in
  is_Some (_driver (self (run_ops lib [OpStart; OpStart] m))) ∧
  is_Some (_service (self (run_ops lib [OpStart; OpStart] m))).
Proof.
  assert (is_Some (_driver (self (run_ops
            (scripted (wait_and_quit_fail ValueError MaxRetryError))
            [OpStart; OpStart] (fresh (__init__ None true 10%float))))))
    as Hd by (by eexists).
  split; [exact Hd|].
  exact (handle_never_without_service
           (scripted (wait_and_quit_fail ValueError MaxRetryError))
           [OpStart; OpStart] (fresh (__init__ None true 10%float))
           (λ H, match is_Some_None H with end) Hd).
Defined.

(** X8 at a body that raises while [quit] fails too. *)
Lemma with_releases_handle_witness :
  let lib := scripted (quit_fails InvalidSessionIdException) in
  let body : WebDriver → M nat unit := λ _, raise (Lib ValueError) in
  _driver (self (snd (with_ lib body (fresh (__init__ None true 10%float)))))
    = None.
Proof.
  exact (with_releases_handle
           (scripted (quit_fails InvalidSessionIdException))
           (λ _, raise (Lib ValueError))
           (fresh (__init__ None true 10%float))
           (snd (start (scripted (quit_fails InvalidSessionIdException))
                   (fresh (__init__ None true 10%float))))
           driver1 eq_refl).
Defined.

End ScraperSpec.

(** * Properties of the logging bootstrap *)

Module LoggingSpec.
Import LoggingSetup.

(** ** The file system *)


Lemma mkdir_syscall_existing (p : Path) (t n : Node) :
  lookup_path p t = Some n → mkdir_syscall p t = Raise EEXIST.
Proof.
  revert t. induction p as [|c p IH]; intros t H; [done|].
  destruct t as [|w ch]; [done|]. simpl in *.
  destruct (ch !! c) as [t'|]; [|done].
  destruct p as [|c' p']; [done|]. by rewrite (IH t' H).
Qed.


Lemma os_mkdir_returns (p : Path) (t t' : Node) :
  os_mkdir p t = Return t' ↔ mkdir_syscall p t = Return t'.
Proof.
  unfold os_mkdir. destruct (mkdir_syscall p t); split; congruence.
Qed.

Lemma os_mkdir_raises (p : Path) (t : Node) (k : Errno) :
  mkdir_syscall p t = Raise k →
  os_mkdir p t = Raise {| errno := k; filename := p |}.
Proof. unfold os_mkdir. by intros ->. Qed.

Lemma os_mkdir_existing (p : Path) (t n : Node) :
  lookup_path p t = Some n → os_mkdir p t = Raise (FileExistsError p).
Proof. intros H. by apply os_mkdir_raises, (mkdir_syscall_existing p t n). Qed.



Lemma mkdir_parents_unfold (exist_ok : bool) (rp : list string) (fs : Node) :
  mkdir_parents exist_ok rp fs =
    match os_mkdir (rev rp) fs with
    | Return fs' => (Return tt, fs')
    | Raise e =>
        if is_FileNotFoundError e then
          match rp with
          | [] => (Raise e, fs)
          | _ :: rparent =>
              match mkdir_parents true rparent fs with
              | (Return _, fs1) => mkdir_plain exist_ok (rev rp) fs1
              | (Raise e1, fs1) => (Raise e1, fs1)
              end
          end
        else if negb exist_ok || negb (is_dir (rev rp) fs) then (Raise e, fs)
        else (Return tt, fs)
    end.
Proof. by destruct rp. Qed.



Lemma mkdir_existing_dir (p : Path) (fs : Node) :
  is_dir p fs = true → mkdir true true p fs = (Return tt, fs).
Proof.
  intros Hd. unfold mkdir. rewrite mkdir_parents_unfold, rev_involutive.
  assert (os_mkdir p fs = Raise (FileExistsError p)) as ->.
  { unfold is_dir in Hd. destruct (lookup_path p fs) as [n|] eqn:Hl; [|done].
    by apply (os_mkdir_existing p fs n). }
  simpl. by rewrite Hd.
Qed.

Section GetLogDir.

Variable repr : string → string.
Variable module_file : Path.

Lemma get_log_dir_eq (project_root : option Path) (fs : Node) :
  get_log_dir repr module_file project_root fs =
    match mkdir true true (log_dir_of module_file project_root) fs with
    | (Return _, fs') => (Return (log_dir_of module_file project_root), fs')
    | (Raise e, fs') =>
        (Raise (LoggingSetupError_from
                  ("No se pudo crear el directorio de logs: " ++
                   OSError_str repr e)
                  e), fs')
    end.
Proof. unfold get_log_dir, log_dir_of. by destruct project_root. Qed.

End GetLogDir.

Example get_log_dir_creates_parents :
  let r := get_log_dir quoted this_module (Some ["srv"; "a"; "b"]) srv_tree in
  fst r = Return ["srv"; "a"; "b"; "logs"] ∧
  is_dir ["srv"; "a"; "b"; "logs"] (snd r) = true ∧
  is_dir ["srv"; "a"] srv_tree = false.
Proof. by vm_compute. Qed.

Example get_log_dir_permission_denied :
  get_log_dir quoted this_module (Some ["etc"]) srv_tree =
    (Raise (LoggingSetupError_from
              "No se pudo crear el directorio de logs: [Errno 13] Permission denied: '/etc/logs'"
              (PermissionError ["etc"; "logs"])),
     srv_tree).
Proof. by vm_compute. Qed.

Example get_log_dir_logs_is_a_file :
  get_log_dir quoted this_module (Some []) logs_is_file =
    (Raise (LoggingSetupError_from
              "No se pudo crear el directorio de logs: [Errno 17] File exists: '/logs'"
              (FileExistsError ["logs"])),
     logs_is_file).
Proof. by vm_compute. Qed.

(** The error names the path at which [os.mkdir] failed, here a regular
    file above the project root. *)
Example get_log_dir_root_below_a_file :
  get_log_dir quoted this_module (Some ["srv"; "readme"; "x"]) srv_tree =
    (Raise (LoggingSetupError_from
              "No se pudo crear el directorio de logs: [Errno 20] Not a directory: '/srv/readme/x/logs'"
              (NotADirectoryError ["srv"; "readme"; "x"; "logs"])),
     srv_tree).
Proof. by vm_compute. Qed.

(** ** The configuration dictionary *)

(** C7.  For every log file path the configuration has exactly the two
    handlers [rotating_file] and [console]: the first a
    [RotatingFileHandler] on that path with [maxBytes] 10 * 1024 * 1024,
    [backupCount] 5, [delay] true and encoding [utf-8], the second a
    [StreamHandler] on standard output; and exactly the two loggers [""]
    (the root, at [DEBUG]) and [urllib3] (at [WARNING]). *)
Theorem logging_config_shape (log_file_path : Path) :
  let cfg := get_logging_config log_file_path in
  let at_ ks := items_at ks cfg in
  keys <$> at_ ["handlers"] = Some {[ "rotating_file"; "console" ]} ∧
  size <$> (keys <$> at_ ["handlers"]) = Some 2%nat ∧
  at_ ["handlers"; "rotating_file"; "class"] =
    Some (VStr "logging.handlers.RotatingFileHandler") ∧
  at_ ["handlers"; "rotating_file"; "filename"] =
    Some (VStr (str log_file_path)) ∧
  at_ ["handlers"; "rotating_file"; "maxBytes"] =
    Some (VInt (10 * 1024 * 1024)) ∧
  at_ ["handlers"; "rotating_file"; "backupCount"] = Some (VInt 5) ∧
  at_ ["handlers"; "rotating_file"; "delay"] = Some (VBool true) ∧
  at_ ["handlers"; "rotating_file"; "encoding"] = Some (VStr "utf-8") ∧
  at_ ["handlers"; "console"; "class"] =
    Some (VStr "logging.StreamHandler") ∧
  at_ ["handlers"; "console"; "stream"] = Some VStdout ∧
  keys <$> at_ ["loggers"] = Some {[ ""; "urllib3" ]} ∧
  size <$> (keys <$> at_ ["loggers"]) = Some 2%nat ∧
  at_ ["loggers"; ""; "level"] = Some (VStr "DEBUG") ∧
  at_ ["loggers"; "urllib3"; "level"] = Some (VStr "WARNING").
Proof. simpl. split_and!; by vm_compute. Qed.

(** ** Level filtering *)

Lemma walk_handlers_sound (cfg : Value) (levelno : Z)
    (chain : list LoggerName) (h : string) :
  h ∈ (walk_handlers cfg levelno chain).1 →
  (handler_level cfg h ≤ levelno)%Z ∧
  ∃ n, n ∈ chain ∧ h ∈ logger_handlers cfg n.
Proof.
  induction chain as [|n rest IH]; simpl.
  - by intros ?%elem_of_nil.
  - destruct (logger_propagate cfg n).
    + destruct (walk_handlers cfg levelno rest) as [emitting' found'].
      simpl in *. intros [Hf|Hr]%elem_of_app.
      * apply list_elem_of_filter in Hf as [Hl Hh].
        split; [done|]. exists n. split; [left|done].
      * destruct (IH Hr) as [Hl (n' & Hn' & Hh)].
        split; [done|]. exists n'. split; [by right|done].
    + simpl. intros Hf. apply list_elem_of_filter in Hf as [Hl Hh].
      split; [done|]. exists n. split; [left|done].
Qed.

Lemma emitted_by_sound (cfg : Value) (n : LoggerName) (levelno : Z)
    (s : Sink) :
  s ∈ emitted_by cfg n levelno →
  match s with
  | Configured h =>
      (handler_level cfg h ≤ levelno)%Z ∧ ∃ n', h ∈ logger_handlers cfg n'
  | LastResort => (30 ≤ levelno)%Z
  end.
Proof.
  unfold emitted_by, callHandlers.
  destruct (Z.leb _ levelno); [|by intros ?%elem_of_nil].
  pose proof (walk_handlers_sound cfg levelno (ancestry n)) as Hw.
  destruct (walk_handlers cfg levelno (ancestry n)) as [emitting found].
  simpl in Hw. destruct (Nat.eqb found 0).
  - destruct (Z.leb 30 levelno) eqn:Hl; [|by intros ?%elem_of_nil].
    intros ->%list_elem_of_singleton. lia.
  - intros (h & -> & Hh)%list_elem_of_fmap.
    destruct (Hw h Hh) as [Hl (n' & _ & Hn')]. eauto.
Qed.

Lemma config_loggers (log_file_path : Path) :
  item "loggers" (get_logging_config log_file_path) =
    Some (dict [
      ("", dict [
        ("handlers", VList [VStr "rotating_file"; VStr "console"]);
        ("level", VStr "DEBUG");
        ("propagate", VBool false)
      ]);
      ("urllib3", dict [
        ("level", VStr "WARNING");
        ("propagate", VBool false)
      ])
    ]).
Proof. by vm_compute. Qed.

Lemma config_logger_handlers (log_file_path : Path) (n : LoggerName)
    (h : string) :
  h ∈ logger_handlers (get_logging_config log_file_path) n →
  h = "rotating_file" ∨ h = "console".
Proof.
  unfold logger_handlers, items_at. generalize (logger_key n) as k.
  intros k. cbn [foldl mbind option_bind]. rewrite config_loggers.
  cbn [mbind option_bind item dict list_to_map foldr uncurry fst snd].
  rewrite lookup_insert. case_decide as Hk.
  - cbn [mbind option_bind]. vm_compute omap.
    intros [->|[->|?%elem_of_nil]%elem_of_cons]%elem_of_cons; by auto.
  - rewrite lookup_insert. case_decide as Hk'.
    + vm_compute. by intros ?%elem_of_nil.
    + rewrite lookup_empty. simpl. by intros ?%elem_of_nil.
Qed.

(** C9.  The file handler is filtered at [INFO] and the console handler at
    [DEBUG], under a root logger at [DEBUG]; so a record below [INFO] is
    emitted by nothing but the console handler, whatever its logger, and
    on the root logger a record from [DEBUG] up to [INFO] excluded is
    emitted by the console handler alone. *)
Theorem below_info_console_only (log_file_path : Path) :
  let cfg := get_logging_config log_file_path in
  items_at ["handlers"; "rotating_file"; "level"] cfg = Some (VStr "INFO") ∧
  items_at ["handlers"; "console"; "level"] cfg = Some (VStr "DEBUG") ∧
  items_at ["loggers"; ""; "level"] cfg = Some (VStr "DEBUG") ∧
  (∀ (n : LoggerName) (levelno : Z) (s : Sink),
     (levelno < 20)%Z → s ∈ emitted_by cfg n levelno →
     s = Configured "console") ∧
  (∀ levelno : Z,
     (10 ≤ levelno < 20)%Z →
     emitted_by cfg [] levelno = [Configured "console"]).
Proof.
  simpl. split_and!; [by vm_compute..| |].
  - intros n levelno s Hlt H. apply emitted_by_sound in H.
    destruct s as [h|]; [|lia]. destruct H as [Hl (n' & Hh)].
    apply config_logger_handlers in Hh as [->| ->]; [|done].
    exfalso. revert Hl.
    assert (handler_level (get_logging_config log_file_path)
              "rotating_file" = 20%Z) as -> by (by vm_compute).
    lia.
  - intros levelno Hl. unfold emitted_by, callHandlers, ancestry. simpl.
    assert (logger_level (get_logging_config log_file_path) [] = 10%Z)
      as -> by (by vm_compute).
    assert (logger_handlers (get_logging_config log_file_path) [] =
              ["rotating_file"; "console"]) as -> by (by vm_compute).
    assert (logger_propagate (get_logging_config log_file_path) [] = false)
      as -> by (by vm_compute).
    simpl. replace (10 <=? levelno)%Z with true by lia.
    rewrite filter_cons, filter_cons, filter_nil.
    assert (handler_level (get_logging_config log_file_path)
              "rotating_file" = 20%Z) as -> by (by vm_compute).
    assert (handler_level (get_logging_config log_file_path)
              "console" = 10%Z) as -> by (by vm_compute).
    repeat case_decide; (done || lia).
Qed.

(** C9 at a record of level 15 on the root logger. *)
Lemma below_info_console_only_witness :
  (10 ≤ 15 < 20)%Z ∧
  emitted_by (get_logging_config ["srv"; "logs"; "application.log"]) [] 15 =
    [Configured "console"].
Proof.
  split; [lia|].
  apply (proj2 (proj2 (proj2 (proj2
           (below_info_console_only ["srv"; "logs"; "application.log"]))))).
  lia.
Defined.

Example info_reaches_both_handlers :
  emitted_by (get_logging_config ["srv"; "logs"; "application.log"])
    ["app"; "scraper"; "scraper"] 20 =
    [Configured "rotating_file"; Configured "console"].
Proof. by vm_compute. Qed.

Example urllib3_below_warning_dropped :
  emitted_by (get_logging_config ["srv"; "logs"; "application.log"])
    ["urllib3"; "connectionpool"] 20 = [].
Proof. by vm_compute. Qed.

(** ** Further properties of the file system and of [get_log_dir] *)

Lemma lookup_path_app (p q : Path) (t : Node) :
  lookup_path (p ++ q)%list t = lookup_path p t ≫= lookup_path q.
Proof.
  revert t. induction p as [|c p IH]; intros t; [done|].
  destruct t as [|w ch]; [done|]. simpl.
  destruct (ch !! c) as [t'|]; [apply IH|done].
Qed.

Lemma extends_refl (fs : Node) : extends fs fs.
Proof. intros q n H. eauto. Qed.

Lemma extends_trans (fs1 fs2 fs3 : Node) :
  extends fs1 fs2 → extends fs2 fs3 → extends fs1 fs3.
Proof.
  intros H12 H23 q n H.
  destruct (H12 q n H) as (n2 & H2 & K2).
  destruct (H23 q n2 H2) as (n3 & H3 & K3).
  exists n3. split; [done|congruence].
Qed.

Lemma mkdir_syscall_extends (p : Path) (t t' : Node) :
  mkdir_syscall p t = Return t' → extends t t'.
Proof.
  revert t t'. induction p as [|c p IH]; intros t t' H; [done|].
  destruct t as [|w ch]; [done|]. simpl in H.
  destruct p as [|c' p'].
  - destruct (ch !! c) eqn:Hc; [done|]. destruct w; [|done].
    injection H as <-. intros [|c2 q] n Hq.
    + injection Hq as <-. by eexists.
    + simpl in *. destruct (decide (c = c2)) as [<-|Hne].
      * by rewrite Hc in Hq.
      * rewrite lookup_insert_ne by done. eauto.
  - destruct (ch !! c) as [t1|] eqn:Hc; [|done].
    destruct (mkdir_syscall (c' :: p') t1) as [t1'|e] eqn:H1; [|done].
    injection H as <-. intros [|c2 q] n Hq.
    + injection Hq as <-. by eexists.
    + simpl in *. destruct (decide (c = c2)) as [<-|Hne].
      * rewrite lookup_insert_eq. rewrite Hc in Hq.
        by apply (IH t1 t1' H1).
      * rewrite lookup_insert_ne by done. eauto.
Qed.

Lemma os_mkdir_extends (p : Path) (t t' : Node) :
  os_mkdir p t = Return t' → extends t t'.
Proof. rewrite os_mkdir_returns. apply mkdir_syscall_extends. Qed.

Lemma mkdir_plain_extends (exist_ok : bool) (p : Path) (fs : Node) :
  extends fs (snd (mkdir_plain exist_ok p fs)).
Proof.
  unfold mkdir_plain. destruct (os_mkdir p fs) as [fs1|e] eqn:H1.
  - by apply (os_mkdir_extends p).
  - destruct (is_FileNotFoundError e); [apply extends_refl|].
    destruct (negb exist_ok || negb (is_dir p fs)); apply extends_refl.
Qed.

Lemma mkdir_parents_extends (exist_ok : bool) (rp : list string)
    (fs : Node) :
  extends fs (snd (mkdir_parents exist_ok rp fs)).
Proof.
  revert exist_ok. induction rp as [|c rparent IH]; intros exist_ok;
    rewrite mkdir_parents_unfold;
    destruct (os_mkdir (rev _) fs) as [fs1|e] eqn:H1;
    try (by apply (os_mkdir_extends _ _ _ H1)).
  - destruct (is_FileNotFoundError e); [apply extends_refl|].
    destruct (negb exist_ok || negb (is_dir _ fs)); apply extends_refl.
  - destruct (is_FileNotFoundError e).
    + pose proof (IH true) as Hp.
      destruct (mkdir_parents true rparent fs) as [[[]|e1] fs1]; [|done].
      eapply extends_trans; [exact Hp|apply mkdir_plain_extends].
    + destruct (negb exist_ok || negb (is_dir _ fs)); apply extends_refl.
Qed.

(** A new directory below an existing, writable one. *)
Lemma mkdir_syscall_fresh (p : Path) (c : string) (fs : Node)
    (ch : gmap string Node) :
  lookup_path p fs = Some (Dir true ch) → ch !! c = None →
  ∃ fs', mkdir_syscall (p ++ [c])%list fs = Return fs' ∧
         lookup_path (p ++ [c])%list fs' = Some (Dir true ∅).
Proof.
  revert fs. induction p as [|a p IH]; intros fs Hl Hc.
  - injection Hl as ->. simpl. rewrite Hc. eexists. split; [done|].
    simpl. by rewrite lookup_insert_eq.
  - destruct fs as [|w0 ch0]; [done|]. simpl in Hl.
    destruct (ch0 !! a) as [t1|] eqn:Ha; [|done].
    destruct (IH t1 Hl Hc) as (t1' & H1 & L1).
    change ((a :: p) ++ [c])%list with (a :: (p ++ [c])%list).
    destruct (p ++ [c])%list as [|b rest] eqn:Hp.
    { by destruct p. }
    simpl. rewrite Ha. simpl in H1. rewrite H1.
    eexists. split; [done|]. simpl. by rewrite lookup_insert_eq.
Qed.

Lemma os_mkdir_fresh (p : Path) (c : string) (fs : Node)
    (ch : gmap string Node) :
  lookup_path p fs = Some (Dir true ch) → ch !! c = None →
  ∃ fs', os_mkdir (p ++ [c])%list fs = Return fs' ∧
         lookup_path (p ++ [c])%list fs' = Some (Dir true ∅).
Proof.
  intros Hl Hc.
  destruct (mkdir_syscall_fresh p c fs ch Hl Hc) as (fs' & H & L).
  exists fs'. split; [by apply os_mkdir_returns|done].
Qed.

(** Below an existing directory that is not writable. *)
Lemma mkdir_syscall_denied (p : Path) (c : string) (fs : Node)
    (ch : gmap string Node) :
  lookup_path p fs = Some (Dir false ch) → ch !! c = None →
  mkdir_syscall (p ++ [c])%list fs = Raise EACCES.
Proof.
  revert fs. induction p as [|a p IH]; intros fs Hl Hc.
  - injection Hl as ->. simpl. by rewrite Hc.
  - destruct fs as [|w0 ch0]; [done|]. simpl in Hl.
    destruct (ch0 !! a) as [t1|] eqn:Ha; [|done].
    pose proof (IH t1 Hl Hc) as H1.
    change ((a :: p) ++ [c])%list with (a :: (p ++ [c])%list).
    destruct (p ++ [c])%list as [|b rest] eqn:Hp.
    { by destruct p. }
    simpl. rewrite Ha. simpl in H1. by rewrite H1.
Qed.

Lemma os_mkdir_denied (p : Path) (c : string) (fs : Node)
    (ch : gmap string Node) :
  lookup_path p fs = Some (Dir false ch) → ch !! c = None →
  os_mkdir (p ++ [c])%list fs = Raise (PermissionError (p ++ [c])%list).
Proof.
  intros Hl Hc. by apply os_mkdir_raises, (mkdir_syscall_denied p c fs ch).
Qed.

(** Two levels below an existing directory that lacks the first. *)
Lemma mkdir_syscall_missing (p : Path) (c c' : string) (fs : Node)
    (w : bool) (ch : gmap string Node) :
  lookup_path p fs = Some (Dir w ch) → ch !! c = None →
  mkdir_syscall (p ++ [c; c'])%list fs = Raise ENOENT.
Proof.
  revert fs. induction p as [|a p IH]; intros fs Hl Hc.
  - injection Hl as ->. simpl. by rewrite Hc.
  - destruct fs as [|w0 ch0]; [done|]. simpl in Hl.
    destruct (ch0 !! a) as [t1|] eqn:Ha; [|done].
    pose proof (IH t1 Hl Hc) as H1.
    change ((a :: p) ++ [c; c'])%list with (a :: (p ++ [c; c'])%list).
    destruct (p ++ [c; c'])%list as [|b rest] eqn:Hp.
    { by destruct p. }
    simpl. rewrite Ha. simpl in H1. by rewrite H1.
Qed.

Lemma os_mkdir_missing (p : Path) (c c' : string) (fs : Node) (w : bool)
    (ch : gmap string Node) :
  lookup_path p fs = Some (Dir w ch) → ch !! c = None →
  os_mkdir (p ++ [c; c'])%list fs =
    Raise (FileNotFoundError (p ++ [c; c'])%list).
Proof.
  intros Hl Hc.
  by apply os_mkdir_raises, (mkdir_syscall_missing p c c' fs w ch).
Qed.

Section MoreGetLogDir.

Variable repr : string → string.
Variable module_file : Path.

(** X10.  [get_log_dir] never removes or replaces anything: whether it
    returns or raises, every path that led to a file still leads to a
    file, and every path that led to a directory still leads to a
    directory with the same permission. *)
Theorem get_log_dir_keeps_entries (project_root : option Path) (fs : Node) :
  extends fs (snd (get_log_dir repr module_file project_root fs)).
Proof.
  rewrite get_log_dir_eq. unfold mkdir.
  pose proof (mkdir_parents_extends true
                (rev (log_dir_of module_file project_root)) fs) as H.
  by destruct (mkdir_parents true _ fs) as [[[]|e] fs1].
Qed.

(** X11.  When the project root is an existing directory in which [logs]
    is a directory already, or is absent while the root is writable,
    [get_log_dir] returns the path of [logs] below the root and that path
    is a directory afterwards. *)
Theorem get_log_dir_succeeds (root : Path) (fs : Node) (w : bool)
    (ch : gmap string Node) :
  lookup_path root fs = Some (Dir w ch) →
  (ch !! LOG_DIR_NAME = None ∧ w = true) ∨
  (∃ w' ch', ch !! LOG_DIR_NAME = Some (Dir w' ch')) →
  let r := get_log_dir repr module_file (Some root) fs in
  fst r = Return (root ++ [LOG_DIR_NAME])%list ∧
  is_dir (root ++ [LOG_DIR_NAME])%list (snd r) = true.
Proof.
  intros Hl Hc. simpl. rewrite get_log_dir_eq.
  change (log_dir_of module_file (Some root))
    with (root ++ [LOG_DIR_NAME])%list.
  destruct Hc as [[Hc ->]|(w' & ch' & Hc)].
  - destruct (os_mkdir_fresh root LOG_DIR_NAME fs ch Hl Hc) as (fs' & Hm & L).
    unfold mkdir. rewrite mkdir_parents_unfold, rev_involutive, Hm. simpl.
    split; [done|]. unfold is_dir. by rewrite L.
  - assert (is_dir (root ++ [LOG_DIR_NAME])%list fs = true) as Hd.
    { unfold is_dir. rewrite lookup_path_app, Hl. simpl. by rewrite Hc. }
    by rewrite (mkdir_existing_dir _ _ Hd).
Qed.

(** X12.  When the path of the log directory is taken by a regular file,
    [get_log_dir] raises [LoggingSetupError] wrapping the
    [FileExistsError] of [os.mkdir] for that path, with the text of that
    error (which ends with the path) after the prefix, and leaves the
    file system as it is: [exist_ok] only forgives an existing
    directory. *)
Theorem get_log_dir_file_in_the_way (project_root : option Path)
    (fs : Node) :
  let dir := log_dir_of module_file project_root in
  lookup_path dir fs = Some File →
  get_log_dir repr module_file project_root fs =
    (Raise (LoggingSetupError_from
              ("No se pudo crear el directorio de logs: " ++
               "[Errno 17] File exists: " ++ repr (str dir))
              (FileExistsError dir)), fs).
Proof.
  simpl. intros Hl. rewrite get_log_dir_eq. unfold mkdir.
  rewrite mkdir_parents_unfold, rev_involutive.
  rewrite (os_mkdir_existing _ _ _ Hl). simpl.
  unfold is_dir. by rewrite Hl.
Qed.

(** X13.  When the project root is a directory without [logs] and without
    write permission, [get_log_dir] raises [LoggingSetupError] wrapping
    the [PermissionError] of [os.mkdir] for the path of [logs], with the
    text of that error (which ends with the path) after the prefix, and
    leaves the file system as it is. *)
Theorem get_log_dir_permission_denied_in_root (root : Path) (fs : Node)
    (ch : gmap string Node) :
  lookup_path root fs = Some (Dir false ch) →
  ch !! LOG_DIR_NAME = None →
  get_log_dir repr module_file (Some root) fs =
    (Raise (LoggingSetupError_from
              ("No se pudo crear el directorio de logs: " ++
               "[Errno 13] Permission denied: " ++
               repr (str (root ++ [LOG_DIR_NAME])%list))
              (PermissionError (root ++ [LOG_DIR_NAME])%list)), fs).
Proof.
  intros Hl Hc. rewrite get_log_dir_eq.
  change (log_dir_of module_file (Some root))
    with (root ++ [LOG_DIR_NAME])%list.
  unfold mkdir. rewrite mkdir_parents_unfold, rev_involutive.
  rewrite (os_mkdir_denied root LOG_DIR_NAME fs ch Hl Hc). simpl.
  unfold is_dir. rewrite lookup_path_app, Hl. simpl. by rewrite Hc.
Qed.

(** X14.  [parents=True]: when the project root itself is missing in an
    existing writable directory, [get_log_dir] creates the root and then
    [logs] in it; both are directories afterwards. *)
Theorem get_log_dir_creates_missing_root (above : Path) (c : string)
    (fs : Node) (ch : gmap string Node) :
  lookup_path above fs = Some (Dir true ch) →
  ch !! c = None →
  let r := get_log_dir repr module_file (Some (above ++ [c])%list) fs in
  fst r = Return (above ++ [c; LOG_DIR_NAME])%list ∧
  is_dir (above ++ [c])%list (snd r) = true ∧
  is_dir (above ++ [c; LOG_DIR_NAME])%list (snd r) = true.
Proof.
  intros Hl Hc. simpl. rewrite get_log_dir_eq.
  change (log_dir_of module_file (Some (above ++ [c])%list))
    with ((above ++ [c]) ++ [LOG_DIR_NAME])%list.
  unfold mkdir.
  replace (rev ((above ++ [c]) ++ [LOG_DIR_NAME])%list)
    with (LOG_DIR_NAME :: c :: rev above)
    by (by rewrite !rev_app_distr).
  rewrite mkdir_parents_unfold.
  replace (rev (LOG_DIR_NAME :: c :: rev above))
    with (above ++ [c; LOG_DIR_NAME])%list
    by (simpl; by rewrite rev_involutive, <- app_assoc).
  rewrite (os_mkdir_missing above c LOG_DIR_NAME fs true ch Hl Hc).
  unfold FileNotFoundError. cbn [is_FileNotFoundError errno].
  rewrite mkdir_parents_unfold.
  replace (rev (c :: rev above)) with (above ++ [c])%list
    by (simpl; by rewrite rev_involutive).
  destruct (os_mkdir_fresh above c fs ch Hl Hc) as (fs1 & Hm1 & L1).
  rewrite Hm1. unfold mkdir_plain.
  destruct (os_mkdir_fresh (above ++ [c])%list LOG_DIR_NAME fs1 ∅ L1)
    as (fs2 & Hm2 & L2); [apply lookup_empty|].
  rewrite <- app_assoc in Hm2, L2. simpl in Hm2, L2. rewrite Hm2.
  rewrite <- app_assoc. simpl.
  split_and!; [done| |].
  - destruct (os_mkdir_extends _ _ _ Hm2 (above ++ [c])%list _ L1)
      as (n' & Hn' & K).
    unfold is_dir. rewrite Hn'. by destruct n'.
  - unfold is_dir. by rewrite L2.
Qed.

End MoreGetLogDir.

(** X15.  Without a project root, the log directory is [logs] three levels
    above the module file: for a module at [root/app/utils/file] the call
    is the one with [root] given, whatever the file system. *)
Theorem get_log_dir_default_root (repr : string → string) (root : Path)
    (a b c : string) (module_file : Path) (fs : Node) :
  get_log_dir repr (root ++ [a; b; c])%list None fs =
    get_log_dir repr module_file (Some root) fs ∧
  log_dir_of (root ++ [a; b; c])%list None = (root ++ [LOG_DIR_NAME])%list.
Proof.
  assert (parent (parent (parent (root ++ [a; b; c])%list)) = root) as H.
  { unfold parent.
    change (root ++ [a; b; c])%list with (root ++ [a] ++ [b] ++ [c])%list.
    by rewrite !app_assoc, !removelast_last. }
  split.
  - rewrite !get_log_dir_eq. unfold log_dir_of. simpl. by rewrite H.
  - unfold log_dir_of. simpl. by rewrite H.
Qed.

(** X11 at a writable directory without [logs]. *)
Lemma get_log_dir_succeeds_witness :
  let r := get_log_dir quoted this_module (Some ["srv"]) srv_tree in
  fst r = Return ["srv"; "logs"] ∧ is_dir ["srv"; "logs"] (snd r) = true.
Proof.
  exact (get_log_dir_succeeds quoted this_module ["srv"] srv_tree true
           {[ "readme" := File ]} eq_refl
           (or_introl (conj eq_refl eq_refl))).
Defined.

(** X12 at a root whose [logs] is a regular file. *)
Lemma get_log_dir_file_in_the_way_witness :
  get_log_dir quoted this_module (Some []) logs_is_file =
    (Raise (LoggingSetupError_from
              "No se pudo crear el directorio de logs: [Errno 17] File exists: '/logs'"
              (FileExistsError ["logs"])), logs_is_file).
Proof.
  exact (get_log_dir_file_in_the_way quoted this_module (Some []) logs_is_file
           eq_refl).
Defined.

(** X13 at the directory [etc], which is not writable. *)
Lemma get_log_dir_permission_denied_in_root_witness :
  get_log_dir quoted this_module (Some ["etc"]) srv_tree =
    (Raise (LoggingSetupError_from
              "No se pudo crear el directorio de logs: [Errno 13] Permission denied: '/etc/logs'"
              (PermissionError ["etc"; "logs"])), srv_tree).
Proof.
  exact (get_log_dir_permission_denied_in_root quoted this_module ["etc"] srv_tree
           ∅ eq_refl eq_refl).
Defined.

(** X14 at a project root [srv/app] that does not exist yet. *)
Lemma get_log_dir_creates_missing_root_witness :
  let r := get_log_dir quoted this_module (Some ["srv"; "app"]) srv_tree in
  fst r = Return ["srv"; "app"; "logs"] ∧
  is_dir ["srv"; "app"] (snd r) = true ∧
  is_dir ["srv"; "app"; "logs"] (snd r) = true.
Proof.
  exact (get_log_dir_creates_missing_root quoted this_module ["srv"] "app" srv_tree
           {[ "readme" := File ]} eq_refl eq_refl).
Defined.

(** ** Further properties of the configuration *)

Lemma unconfigured_logger (log_file_path : Path) (q : LoggerName) :
  logger_key q ≠ "" → logger_key q ≠ "urllib3" →
  let cfg := get_logging_config log_file_path in
  logger_level cfg q = initial_level q ∧
  logger_handlers cfg q = [] ∧
  logger_propagate cfg q = true.
Proof.
  intros H1 H2. simpl.
  unfold logger_level, logger_handlers, logger_propagate, items_at.
  revert H1 H2. generalize (logger_key q) as k. intros k H1 H2.
  cbn [foldl mbind option_bind]. rewrite config_loggers.
  cbn [mbind option_bind item dict list_to_map foldr uncurry fst snd].
  rewrite lookup_insert_ne by done. rewrite lookup_insert_ne by done.
  by rewrite lookup_empty.
Qed.

Lemma skip_unconfigured (log_file_path : Path) (q : LoggerName)
    (chain : list LoggerName) (levelno : Z) :
  q ≠ [] → logger_key q ≠ "" → logger_key q ≠ "urllib3" →
  let cfg := get_logging_config log_file_path in
  effective_level cfg (q :: chain) = effective_level cfg chain ∧
  walk_handlers cfg levelno (q :: chain) = walk_handlers cfg levelno chain.
Proof.
  intros Hq H1 H2. simpl.
  destruct (unconfigured_logger log_file_path q H1 H2) as (Hl & Hh & Hp).
  rewrite Hl, Hh, Hp. split.
  - by destruct q.
  - rewrite filter_nil. by destruct (walk_handlers _ levelno chain).
Qed.

Lemma unconfigured_chain (log_file_path : Path) (n : LoggerName)
    (levelno : Z) :
  unconfigured n →
  let cfg := get_logging_config log_file_path in
  effective_level cfg (ancestry n) = effective_level cfg (ancestry []) ∧
  walk_handlers cfg levelno (ancestry n) =
    walk_handlers cfg levelno (ancestry []).
Proof.
  unfold unconfigured, ancestry. generalize (rev n) as rn. cbv zeta.
  induction rn as [|x rp IH]; intros Hf; [done|].
  change (ancestry_rev (x :: rp)) with (rev (x :: rp) :: ancestry_rev rp)
    in *.
  apply Forall_cons in Hf as [Hq Hf].
  assert (rev (x :: rp) ≠ []) as Hne.
  { simpl. by destruct (rev rp). }
  destruct Hq as [Hq|[H1 H2]]; [done|].
  destruct (skip_unconfigured log_file_path _ (ancestry_rev rp) levelno
              Hne H1 H2) as [E1 E2].
  destruct (IH Hf) as [I1 I2].
  split; [exact (eq_trans E1 I1)|exact (eq_trans E2 I2)].
Qed.

Lemma root_chain (log_file_path : Path) (levelno : Z) :
  let cfg := get_logging_config log_file_path in
  effective_level cfg (ancestry []) = 10%Z ∧
  walk_handlers cfg levelno (ancestry []) =
    (filter (λ h, (handler_level cfg h ≤ levelno)%Z)
            ["rotating_file"; "console"], 2%nat).
Proof.
  unfold ancestry. simpl.
  assert (logger_level (get_logging_config log_file_path) [] = 10%Z)
    as -> by (by vm_compute).
  assert (logger_handlers (get_logging_config log_file_path) [] =
            ["rotating_file"; "console"]) as -> by (by vm_compute).
  assert (logger_propagate (get_logging_config log_file_path) [] = false)
    as -> by (by vm_compute).
  done.
Qed.

Lemma handler_levels (log_file_path : Path) :
  let cfg := get_logging_config log_file_path in
  handler_level cfg "rotating_file" = 20%Z ∧
  handler_level cfg "console" = 10%Z.
Proof. by vm_compute. Qed.

(** X16.  On the root logger the configuration sorts records by level:
    below [DEBUG] nothing is emitted, from [DEBUG] up to [INFO] excluded
    the console handler emits, and from [INFO] on the file handler and
    the console handler both emit, in this order. *)
Theorem root_logger_by_level (log_file_path : Path) (levelno : Z) :
  emitted_by (get_logging_config log_file_path) [] levelno =
    if (levelno <? 10)%Z then []
    else if (levelno <? 20)%Z then [Configured "console"]
    else [Configured "rotating_file"; Configured "console"].
Proof.
  unfold emitted_by, callHandlers.
  destruct (root_chain log_file_path levelno) as [-> ->].
  destruct (handler_levels log_file_path) as [Hf Hc].
  rewrite filter_cons, filter_cons, filter_nil, Hf, Hc.
  destruct (Z.ltb_spec levelno 10); [by replace (10 <=? levelno)%Z
                                       with false by lia|].
  replace (10 <=? levelno)%Z with true by lia.
  destruct (Z.ltb_spec levelno 20); repeat case_decide; (done || lia).
Qed.

(** X17.  A logger that the configuration does not mention, below no
    configured logger but the root, is served like the root logger at
    every level. *)
Theorem unconfigured_logger_as_root (log_file_path : Path)
    (n : LoggerName) (levelno : Z) :
  unconfigured n →
  emitted_by (get_logging_config log_file_path) n levelno =
    emitted_by (get_logging_config log_file_path) [] levelno.
Proof.
  intros Hn. unfold emitted_by, callHandlers.
  by destruct (unconfigured_chain log_file_path n levelno Hn) as [-> ->].
Qed.

Lemma urllib3_chain (log_file_path : Path) (rr : list string)
    (levelno : Z) :
  let cfg := get_logging_config log_file_path in
  effective_level cfg (ancestry_rev (rr ++ ["urllib3"])) = 30%Z ∧
  walk_handlers cfg levelno (ancestry_rev (rr ++ ["urllib3"])) = ([], 0%nat).
Proof.
  simpl. induction rr as [|x rr IH].
  - simpl.
    assert (logger_level (get_logging_config log_file_path) ["urllib3"]
              = 30%Z) as -> by (by vm_compute).
    assert (logger_handlers (get_logging_config log_file_path) ["urllib3"]
              = []) as -> by (by vm_compute).
    assert (logger_propagate (get_logging_config log_file_path) ["urllib3"]
              = false) as -> by (by vm_compute).
    done.
  - change (ancestry_rev ((x :: rr) ++ ["urllib3"]))
      with (rev (x :: rr ++ ["urllib3"])
              :: ancestry_rev (rr ++ ["urllib3"])).
    assert (∃ y ys, rev (x :: rr ++ ["urllib3"]) = "urllib3" :: y :: ys)
      as (y & ys & ->).
    { simpl. rewrite rev_app_distr. simpl.
      destruct (rev rr) as [|y ys]; simpl; eauto. }
    destruct (skip_unconfigured log_file_path ("urllib3" :: y :: ys)
                (ancestry_rev (rr ++ ["urllib3"])) levelno)
      as [E1 E2]; [done..|].
    destruct IH as [I1 I2].
    split; [exact (eq_trans E1 I1)|exact (eq_trans E2 I2)].
Qed.

Lemma walk_handlers_with_none (cfg : Value) (levelno : Z)
    (chain : list LoggerName) :
  walk_handlers_with (λ _, 0%nat) cfg levelno chain =
    walk_handlers cfg levelno chain.
Proof.
  induction chain as [|n rest IH]; [done|]. simpl. rewrite IH.
  by rewrite Nat.add_0_r.
Qed.

Lemma urllib3_chain_with (others : LoggerName → nat)
    (log_file_path : Path) (rr : list string) (levelno : Z) :
  let r := walk_handlers_with others (get_logging_config log_file_path)
             levelno (ancestry_rev (rr ++ ["urllib3"])) in
  r.1 = [] ∧ (others ["urllib3"] ≤ r.2)%nat ∧
  ((∀ q, others q = 0%nat) → r.2 = 0%nat).
Proof.
  simpl. induction rr as [|x rr IH].
  - simpl.
    assert (logger_handlers (get_logging_config log_file_path) ["urllib3"]
              = []) as -> by (by vm_compute).
    assert (logger_propagate (get_logging_config log_file_path) ["urllib3"]
              = false) as -> by (by vm_compute).
    simpl. split_and!; [done|lia|]. intros H. apply H.
  - change (ancestry_rev ((x :: rr) ++ ["urllib3"]))
      with (rev (x :: rr ++ ["urllib3"])
              :: ancestry_rev (rr ++ ["urllib3"])).
    assert (∃ y ys, rev (x :: rr ++ ["urllib3"]) = "urllib3" :: y :: ys)
      as (y & ys & ->).
    { simpl. rewrite rev_app_distr. simpl.
      destruct (rev rr) as [|y ys]; simpl; eauto. }
    destruct (unconfigured_logger log_file_path ("urllib3" :: y :: ys))
      as (_ & Hh & Hp); [done..|].
    cbn [walk_handlers_with]. cbv zeta in Hh, Hp. rewrite Hh, Hp.
    destruct (walk_handlers_with others _ levelno
                (ancestry_rev (rr ++ ["urllib3"]))) as [e f].
    simpl in *. destruct IH as (-> & Hle & Hz).
    split_and!; [done|lia|]. intros H. rewrite (Hz H), H. done.
Qed.

(** X18.  Records of the [urllib3] logger and of every logger below it
    never reach the file or the console handler, whatever handlers other
    code attached to these loggers: below [WARNING] they are dropped;
    from [WARNING] on they go to the handler of last resort when no
    handler at all is attached on the way up, and to none of the sinks of
    the configuration when [urllib3] carries a handler of its own. *)
Theorem urllib3_never_reaches_the_handlers (others : LoggerName → nat)
    (log_file_path : Path) (rest : list string) (levelno : Z) :
  let out := emitted_by_with others (get_logging_config log_file_path)
               ("urllib3" :: rest) levelno in
  (∀ h, Configured h ∉ out) ∧
  ((levelno < 30)%Z → out = []) ∧
  ((∀ q, others q = 0%nat) →
   out = if (30 <=? levelno)%Z then [LastResort] else []) ∧
  (others ["urllib3"] ≠ 0%nat → out = []).
Proof.
  simpl. unfold emitted_by_with, callHandlers_with, ancestry.
  change (rev ("urllib3" :: rest)) with (rev rest ++ ["urllib3"])%list.
  destruct (urllib3_chain log_file_path (rev rest) levelno) as [-> _].
  destruct (urllib3_chain_with others log_file_path (rev rest) levelno)
    as (He & Hle & Hz).
  destruct (walk_handlers_with others _ levelno _) as [e f].
  simpl in He, Hle, Hz. subst e.
  destruct (Z.leb_spec 30 levelno) as [Hl|Hl].
  - split_and!.
    + intros h. destruct (f =? 0)%nat; simpl;
        [by intros [=]%list_elem_of_singleton|by intros ?%elem_of_nil].
    + lia.
    + intros H. by rewrite (Hz H).
    + intros H. destruct (Nat.eqb_spec f 0); [lia|done].
  - split_and!; [by intros h ?%elem_of_nil|done..].
Qed.

Lemma emitted_by_with_none (cfg : Value) (n : LoggerName) (levelno : Z) :
  emitted_by_with (λ _, 0%nat) cfg n levelno = emitted_by cfg n levelno.
Proof.
  unfold emitted_by_with, emitted_by, callHandlers_with, callHandlers.
  by rewrite walk_handlers_with_none.
Qed.

Example urllib3_with_its_null_handler :
  emitted_by_with (λ n, if decide (n = ["urllib3"]) then 1%nat else 0%nat)
    (get_logging_config ["srv"; "logs"; "application.log"])
    ["urllib3"; "connectionpool"] 40 = [] ∧
  emitted_by_with (λ _, 0%nat)
    (get_logging_config ["srv"; "logs"; "application.log"])
    ["urllib3"; "connectionpool"] 40 = [LastResort].
Proof. by vm_compute. Qed.

(** X19.  The configuration refers only to what it defines: every handler
    names a formatter that is among the formatters, and every handler a
    logger names is among the handlers. *)
Theorem logging_config_references_resolve (log_file_path : Path) :
  let cfg := get_logging_config log_file_path in
  (∀ h : string,
     h ∈ default ∅ (keys <$> items_at ["handlers"] cfg) →
     ∃ f : string,
       items_at ["handlers"; h; "formatter"] cfg = Some (VStr f) ∧
       f ∈ default ∅ (keys <$> items_at ["formatters"] cfg)) ∧
  (∀ (n : LoggerName) (h : string),
     h ∈ logger_handlers cfg n →
     h ∈ default ∅ (keys <$> items_at ["handlers"] cfg)).
Proof.
  simpl.
  assert (default ∅ (keys <$> items_at ["handlers"]
                       (get_logging_config log_file_path)) =
            ({[ "rotating_file"; "console" ]} : gset string)) as ->
    by (by vm_compute).
  assert (default ∅ (keys <$> items_at ["formatters"]
                       (get_logging_config log_file_path)) =
            ({[ "standard" ]} : gset string)) as ->
    by (by vm_compute).
  split.
  - intros h [->%elem_of_singleton| ->%elem_of_singleton]%elem_of_union;
      exists "standard"; (split; [by vm_compute|set_solver]).
  - intros n h [->| ->]%config_logger_handlers; set_solver.
Qed.

(** X20.  Under the configuration, every record the wrapper logs during
    any sequence of calls of [start] and [stop] is emitted by the file
    handler and by the console handler, when the wrapper logs on a logger
    the configuration does not mention (as the logger of its module). *)
Theorem wrapper_records_reach_file_and_console {World : Type}
    (lib : Scraper.Selenium World) (ops : list Scraper.Op)
    (m : Scraper.Machine World) (log_file_path : Path) (n : LoggerName)
    (r : Scraper.LogRecord) :
  unconfigured n →
  Scraper.records m = [] →
  r ∈ Scraper.records (Scraper.run_ops lib ops m) →
  emitted_by (get_logging_config log_file_path) n
    (levelno (Scraper.levelname r)) =
    [Configured "rotating_file"; Configured "console"].
Proof.
  intros Hn Hm Hr.
  destruct (ScraperSpec.run_ops_appends_records lib ops m) as (l & Hl & Fl).
  rewrite Hl, Hm in Hr. simpl in Hr.
  rewrite Forall_forall in Fl. specialize (Fl r Hr).
  unfold emitted_by, callHandlers.
  destruct (unconfigured_chain log_file_path n
              (levelno (Scraper.levelname r)) Hn) as [-> ->].
  destruct (Scraper.levelname r); [done|by vm_compute..].
Qed.

(** X17 at the logger of [app/scraper/scraper.py]. *)
Lemma unconfigured_logger_as_root_witness :
  emitted_by (get_logging_config ["srv"; "logs"; "application.log"])
    scraper_logger 30 =
  emitted_by (get_logging_config ["srv"; "logs"; "application.log"]) [] 30.
Proof.
  apply (unconfigured_logger_as_root ["srv"; "logs"; "application.log"]
           scraper_logger 30).
  unfold unconfigured, scraper_logger, ancestry. simpl.
  repeat first [apply Forall_nil_2 | apply Forall_cons_2];
    first [by left | by right].
Defined.

(** X20 at the record of a successful [start], on the logger of the
    module. *)
Lemma wrapper_records_reach_file_and_console_witness :
  emitted_by (get_logging_config ["srv"; "logs"; "application.log"])
    scraper_logger (levelno Scraper.INFO) =
    [Configured "rotating_file"; Configured "console"].
Proof.
  apply (wrapper_records_reach_file_and_console
           (Scraper.scripted Scraper.healthy) [Scraper.OpStart]
           (Scraper.fresh (Scraper.__init__ None true 10%float))
           ["srv"; "logs"; "application.log"] scraper_logger
           Scraper.info_started).
  - unfold unconfigured, scraper_logger, ancestry. simpl.
    repeat first [apply Forall_nil_2 | apply Forall_cons_2];
      first [by left | by right].
  - reflexivity.
  - apply list_elem_of_singleton. reflexivity.
Defined.

(** ** [setup_logging] *)

Section SetupLogging.

Context {LogWorld : Type} (pkg : LoggingPackage LogWorld).
Variable repr : string → string.
Variable module_file : Path.

Lemma get_log_dir_raises (project_root : option Path) (fs fs' : Node)
    (e : LoggingSetupError) :
  get_log_dir repr module_file project_root fs = (Raise e, fs') →
  ∃ cause : OSError,
    mkdir true true (log_dir_of module_file project_root) fs =
      (Raise cause, fs') ∧
    is_dir (log_dir_of module_file project_root) fs = false ∧
    e = LoggingSetupError_from
          ("No se pudo crear el directorio de logs: " ++
           OSError_str repr cause)
          cause.
Proof.
  intros H.
  destruct (is_dir (log_dir_of module_file project_root) fs) eqn:Hd.
  { rewrite get_log_dir_eq, (mkdir_existing_dir _ _ Hd) in H. done. }
  rewrite get_log_dir_eq in H.
  destruct (mkdir true true _ fs) as [[[]|cause] fs1]; [done|].
  injection H as <- <-. by exists cause.
Qed.



(** X21.  When [get_log_dir] fails, [setup_logging] raises a
    [LoggingSetupError] whose cause is the [LoggingSetupError] of
    [get_log_dir], itself caused by the [OSError] that [mkdir] raised, and
    whose message is the two prefixes followed by the text of that
    [OSError] (which ends with its file name); the [logging] package has
    not been called and its state is untouched. *)
Theorem setup_logging_directory_failure (project_root : option Path)
    (fs fs' : Node) (w : LogWorld) (e : LoggingSetupError) :
  get_log_dir repr module_file project_root fs = (Raise e, fs') →
  ∃ cause : OSError,
    mkdir true true (log_dir_of module_file project_root) fs =
      (Raise cause, fs') ∧
    e = LoggingSetupError_from
          ("No se pudo crear el directorio de logs: " ++
           Errno_str (errno cause) ++ ": " ++
           repr (str (filename cause)))
          cause ∧
    setup_logging pkg repr module_file project_root fs w =
      (Raise (SetupError
                ("Error configurando el sistema de logging: " ++
                 "No se pudo crear el directorio de logs: " ++
                 Errno_str (errno cause) ++ ": " ++
                 repr (str (filename cause)))
                (FromLogDir e)),
       (fs', w, [])).
Proof.
  intros H. unfold setup_logging. rewrite H.
  destruct (get_log_dir_raises _ _ _ _ H) as (cause & Hm & _ & ->).
  exists cause. by split_and!.
Qed.


End SetupLogging.




(** X21 at a root whose [logs] is a regular file. *)
Lemma setup_logging_directory_failure_witness :
  ∃ cause : OSError,
    mkdir true true ["logs"] logs_is_file = (Raise cause, logs_is_file) ∧
    LoggingSetupError_from
      "No se pudo crear el directorio de logs: [Errno 17] File exists: '/logs'"
      (FileExistsError ["logs"]) =
    LoggingSetupError_from
      ("No se pudo crear el directorio de logs: " ++
       Errno_str (errno cause) ++ ": " ++ quoted (str (filename cause)))
      cause ∧
    setup_logging accepting quoted this_module (Some []) logs_is_file 0%nat =
      (Raise (SetupError
                ("Error configurando el sistema de logging: " ++
                 "No se pudo crear el directorio de logs: " ++
                 Errno_str (errno cause) ++ ": " ++
                 quoted (str (filename cause)))
                (FromLogDir
                   (LoggingSetupError_from
                      "No se pudo crear el directorio de logs: [Errno 17] File exists: '/logs'"
                      (FileExistsError ["logs"])))),
       (logs_is_file, 0%nat, [])).
Proof.
  exact (setup_logging_directory_failure accepting quoted this_module
           (Some []) logs_is_file logs_is_file 0%nat _ eq_refl).
Defined.

Example setup_logging_directory_failure_text :
  fst (setup_logging accepting quoted this_module (Some []) logs_is_file
         0%nat) =
    Raise (SetupError
             "Error configurando el sistema de logging: No se pudo crear el directorio de logs: [Errno 17] File exists: '/logs'"
             (FromLogDir
                (LoggingSetupError_from
                   "No se pudo crear el directorio de logs: [Errno 17] File exists: '/logs'"
                   (FileExistsError ["logs"])))).
Proof. by vm_compute. Qed.

End LoggingSpec.
